(** * The ATAC-seq driver of [pipelines/atacseq.py]

    A shallow embedding of the workflow driver [process], of [main] and of
    the [__main__] guard, together with the properties of the driver that
    the specification states.

    The driver talks to two collaborators that are not among the sources:
    the [toolkit] module ([tk]), a catalog of command builders, and the
    [pypiper] step executor ([pipe]).  The driver never looks at what a
    [pipe] call returns and the builders are pure, so one run of [process]
    factors into the sequence of requests the driver issues (first part
    of the file) and the executor's treatment of each request against the
    filesystem (second part). *)

From stdpp Require Import gmap strings list.
From Stdlib Require Import ZArith.

Local Open Scope Z_scope.

(** ** Python values and helpers *)

(** [sample.unmappedBam] is dynamically typed: one path, or a list of
    paths when the sample has several technical replicates. *)
Inductive RawBam :=
  | BamPath (p : string)
  | BamList (ps : list string).

(** Exceptions that can travel up to the [__main__] guard. *)
Inductive exn :=
  | KeyError (key : string)
  | ToolFailure
  | KeyboardInterrupt
  | OSError
  | SystemExit (code : Z).

(** [s.endswith("/")] *)
Fixpoint ends_with_slash (s : string) : bool :=
  match s with
  | EmptyString => false
  | String c EmptyString => String.eqb (String c EmptyString) "/"
  | String _ rest => ends_with_slash rest
  end.

(** [os.path.join(a, b)] on POSIX. *)
Definition path_join (a b : string) : string :=
  if String.prefix "/" b then b
  else if String.eqb a "" || ends_with_slash a then a +:+ b
  else a +:+ "/" +:+ b.

(** ["/".join(parts)] *)
Fixpoint slash_join (parts : list string) : string :=
  match parts with
  | [] => ""
  | [p] => p
  | p :: rest => p +:+ "/" +:+ slash_join rest
  end.

(** ** The inputs handed to the driver *)

Module SampleDirs.
Record t := mk {
  sampleRoot : string;
  unmapped : string;
  peaks : string
}.
End SampleDirs.

Module Sample.
Record t := mk {
  name : string;
  dirs : SampleDirs.t;
  genome : string;
  paired : bool;
  tagmented : bool;
  unmappedBam : RawBam;
  unmapped : string;
  fastq : string;
  fastq1 : string;
  fastq2 : string;
  fastqUnpaired : string;
  trimmed : string;
  trimmed1 : string;
  trimmed2 : string;
  trimmed1Unpaired : string;
  trimmed2Unpaired : string;
  trimlog : string;
  mapped : string;
  alnRates : string;
  alnMetrics : string;
  filtered : string;
  dupsMetrics : string;
  filteredshifted : string;
  bigwig : string;
  trackURL : string;
  trackColour : string;
  insertplot : string;
  insertdata : string;
  coverage : string;
  qc : string;
  qcPlot : string;
  peaks : string;
  frip : string
}.

(** [sample.unmappedBam = v] *)
Definition set_unmappedBam (v : RawBam) (s : t) : t :=
  mk (name s) (dirs s) (genome s) (paired s) (tagmented s) v
     (unmapped s) (fastq s) (fastq1 s) (fastq2 s) (fastqUnpaired s)
     (trimmed s) (trimmed1 s) (trimmed2 s) (trimmed1Unpaired s)
     (trimmed2Unpaired s) (trimlog s) (mapped s) (alnRates s)
     (alnMetrics s) (filtered s) (dupsMetrics s) (filteredshifted s)
     (bigwig s) (trackURL s) (trackColour s) (insertplot s)
     (insertdata s) (coverage s) (qc s) (qcPlot s) (peaks s) (frip s).

Definition raw_paths (v : RawBam) : list string :=
  match v with
  | BamPath p => [p]
  | BamList ps => ps
  end.

(** Every file path the descriptor holds. *)
Definition known_paths (s : t) : list string :=
  raw_paths (unmappedBam s) ++
  [ SampleDirs.sampleRoot (dirs s); SampleDirs.unmapped (dirs s);
    SampleDirs.peaks (dirs s);
    unmapped s; fastq s; fastq1 s; fastq2 s; fastqUnpaired s;
    trimmed s; trimmed1 s; trimmed2 s; trimmed1Unpaired s;
    trimmed2Unpaired s; trimlog s; mapped s; alnRates s; alnMetrics s;
    filtered s; dupsMetrics s; filteredshifted s; bigwig s;
    insertplot s; insertdata s; coverage s; qc s; qcPlot s; peaks s;
    frip s ].
End Sample.

Module Args.
Record t := mk {
  trimmer : string;
  cpus : Z;
  maxinsert : Z;
  quality : Z;
  dry_run : bool
}.

Definition with_trimmer (v : string) (a : t) : t :=
  mk v (cpus a) (maxinsert a) (quality a) (dry_run a).
End Args.

Module Project.
(** [prj.config["annotations"]]: three tables keyed by genome. *)
Record annotations := mk_annotations {
  genomes : gmap string string;
  chrsizes : gmap string string;
  genomewindows : gmap string string
}.

(** [prj.config]: the keys the driver spells out are fields. *)
Record config_t := mk_config {
  adapters : string;
  url : string;
  annot : annotations
}.

Record dirs_t := mk_dirs {
  html : string;
  root : string
}.

Record t := mk {
  name : string;
  config : config_t;
  dirs : dirs_t
}.
End Project.

(** ** The toolkit catalog *)

Module tk.
(** Modelled from the spec: the catalog of command builders (module
    [toolkit], imported as [tk], is not among the sources).  Each
    builder is a pure function from typed parameters to a command that
    the driver and the executor treat as opaque, so a command is the
    builder's name applied to the arguments of the call, in the order
    the driver writes them. *)
Inductive Cmd :=
  | mergeBams (inputBams : list string) (outputBam : string)
  | fastqc (inputBam : RawBam) (outputDir sampleName : string)
  | bam2fastq (inputBam : RawBam) (outputFastq : string)
      (outputFastq2 unpairedFastq : option string)
  | trimmomatic (inputFastq1 : string) (inputFastq2 : option string)
      (outputFastq1 : string) (outputFastq1unpaired : option string)
      (outputFastq2 outputFastq2unpaired : option string)
      (cpus : Z) (adapters log : string)
  | skewer (inputFastq1 : string) (inputFastq2 : option string)
      (outputPrefix outputFastq1 : string) (outputFastq2 : option string)
      (trimLog : string) (cpus : Z) (adapters : string)
  | bowtie2Map (inputFastq1 : string) (inputFastq2 : option string)
      (outputBam log metrics genomeIndex : string) (maxInsert cpus : Z)
  | filterReads (inputBam outputBam metricsFile : string) (paired : bool)
      (cpus Q : Z)
  | shiftReads (inputBam genome outputBam : string)
  | indexBam (inputBam : string)
  | bamToBigWig (inputBam outputBigWig genomeSizes genome : string)
      (tagmented normalize : bool)
  | addTrackToHub (sampleName trackURL trackHub colour : string)
  | genomeWideCoverage (inputBam genomeWindows output : string)
  | peakTools (inputBam output plot : string) (cpus : Z)
  | macs2CallPeaksATACSeq (treatmentBam outputDir sampleName genome : string)
  | calculateFRiP (inputBam inputBed output : string).

(** The two toolkit functions the driver calls for their own effect
    instead of handing a command to the executor. *)
Inductive Call :=
  | linkToTrackHub (trackHubURL fileName genome : string)
  | plotInsertSizesFit (bam plot outputCSV : string).
End tk.

(** ** Requests issued by the driver *)

Inductive Request :=
  | Timestamp (msg : string)
  | CallLock (cmd : tk.Cmd) (target lock_name : option string)
      (shell nofail : bool)
  | CleanAdd (path : string) (conditional : bool)
  | Invoke (call : tk.Call)
  | EnsureDir (path : string).

(** ** The driver monad: the sample descriptor (mutated in place by the
    source), the requests issued so far, and Python exceptions. *)

Inductive outcome (A : Type) :=
  | Returned (a : A)
  | Raised (e : exn).
Arguments Returned {A} a.
Arguments Raised {A} e.

Record DState := mkDState {
  the_sample : Sample.t;
  issued : list Request
}.

Definition Driver (A : Type) : Type := DState → outcome A * DState.

#[global] Instance Driver_ret : MRet Driver :=
  λ A a st, (Returned a, st).

#[global] Instance Driver_bind : MBind Driver :=
  λ A B f m st,
    match m st with
    | (Returned a, st') => f a st'
    | (Raised e, st') => (Raised e, st')
    end.

Definition get_sample : Driver Sample.t :=
  λ st, (Returned (the_sample st), st).

Definition modify_sample (f : Sample.t → Sample.t) : Driver () :=
  λ st, (Returned (), mkDState (f (the_sample st)) (issued st)).

Definition request (r : Request) : Driver () :=
  λ st, (Returned (), mkDState (the_sample st) (issued st ++ [r])).

Definition raise {A} (e : exn) : Driver A :=
  λ st, (Raised e, st).

(** [table[key]] on a Python dict. *)
Definition getitem (table : gmap string string) (key : string)
  : Driver string :=
  match table !! key with
  | Some v => mret v
  | None => raise (KeyError key)
  end.

Module pipe.
Definition timestamp (msg : string) : Driver () :=
  request (Timestamp msg).

(** [pipe.call_lock(cmd, target, lock_name=..., shell=True, nofail=...)] *)
Definition call_lock (cmd : tk.Cmd) (target lock_name : option string)
    (nofail : bool) : Driver () :=
  request (CallLock cmd target lock_name true nofail).

Definition clean_add (path : string) (conditional : bool) : Driver () :=
  request (CleanAdd path conditional).
End pipe.

(** Python's conditional expression [a if c else b]. *)
Notation "a 'IF' c 'ELSE' b" := (if c then a else b)
  (at level 69, c at next level, only parsing).

Definition when (c : bool) (body : Driver ()) : Driver () :=
  if c then body else mret ().

(** ** The driver: [process(args, prj, sample)]

    The sample is the descriptor held in the monad's state.  The two
    [print] lines and the construction of the [Pypiper] object have no
    bearing on what follows and are left out. *)

Definition process (args : Args.t) (prj : Project.t) : Driver () :=
  sample ← get_sample;
  (* Merge Bam files if more than one technical replicate *)
  match Sample.unmappedBam sample with
  | BamList inputBams =>
      pipe.timestamp "Merging bam files from replicates" ;;
      let cmd := tk.mergeBams inputBams (Sample.unmapped sample) in
      pipe.call_lock cmd (Some (Sample.unmapped sample)) None false ;;
      modify_sample (Sample.set_unmappedBam (BamPath (Sample.unmapped sample)))
  | BamPath _ => mret ()
  end ;;
  sample ← get_sample;
  let paired := Sample.paired sample in
  (* Fastqc *)
  pipe.timestamp "Measuring sample quality with Fastqc" ;;
  let cmd := tk.fastqc (Sample.unmappedBam sample)
               (SampleDirs.sampleRoot (Sample.dirs sample))
               (Sample.name sample) in
  pipe.call_lock cmd
    (Some (path_join (SampleDirs.sampleRoot (Sample.dirs sample))
                     (Sample.name sample +:+ "_fastqc.zip")))
    None false ;;
  (* Convert bam to fastq *)
  pipe.timestamp "Converting to Fastq format" ;;
  let cmd := tk.bam2fastq (Sample.unmappedBam sample)
               (Sample.fastq1 sample IF paired ELSE Sample.fastq sample)
               (Some (Sample.fastq2 sample) IF paired ELSE None)
               (Some (Sample.fastqUnpaired sample) IF paired ELSE None) in
  pipe.call_lock cmd
    (Some (Sample.fastq1 sample IF paired ELSE Sample.fastq sample))
    None false ;;
  when (negb paired)
    (pipe.clean_add (Sample.fastq sample) true) ;;
  when paired
    (pipe.clean_add (Sample.fastq1 sample) true ;;
     pipe.clean_add (Sample.fastq2 sample) true ;;
     pipe.clean_add (Sample.fastqUnpaired sample) true) ;;
  (* Trim reads *)
  pipe.timestamp "Trimming adapters from sample" ;;
  (if String.eqb (Args.trimmer args) "trimmomatic" then
     let cmd := tk.trimmomatic
                  (Sample.fastq1 sample IF paired ELSE Sample.fastq sample)
                  (Some (Sample.fastq2 sample) IF paired ELSE None)
                  (Sample.trimmed1 sample IF paired ELSE Sample.trimmed sample)
                  (Some (Sample.trimmed1Unpaired sample) IF paired ELSE None)
                  (Some (Sample.trimmed2 sample) IF paired ELSE None)
                  (Some (Sample.trimmed2Unpaired sample) IF paired ELSE None)
                  (Args.cpus args)
                  (Project.adapters (Project.config prj))
                  (Sample.trimlog sample) in
     pipe.call_lock cmd
       (Some (Sample.trimmed1 sample IF paired ELSE Sample.trimmed sample))
       None false ;;
     if negb paired then
       pipe.clean_add (Sample.trimmed sample) true
     else
       pipe.clean_add (Sample.trimmed1 sample) true ;;
       pipe.clean_add (Sample.trimmed1Unpaired sample) true ;;
       pipe.clean_add (Sample.trimmed2 sample) true ;;
       pipe.clean_add (Sample.trimmed2Unpaired sample) true
   else if String.eqb (Args.trimmer args) "skewer" then
     let cmd := tk.skewer
                  (Sample.fastq1 sample IF paired ELSE Sample.fastq sample)
                  (Some (Sample.fastq2 sample) IF paired ELSE None)
                  (path_join (SampleDirs.unmapped (Sample.dirs sample))
                             (Sample.name sample))
                  (Sample.trimmed1 sample IF paired ELSE Sample.trimmed sample)
                  (Some (Sample.trimmed2 sample) IF paired ELSE None)
                  (Sample.trimlog sample)
                  (Args.cpus args)
                  (Project.adapters (Project.config prj)) in
     pipe.call_lock cmd
       (Some (Sample.trimmed1 sample IF paired ELSE Sample.trimmed sample))
       None false ;;
     if negb paired then
       pipe.clean_add (Sample.trimmed sample) true
     else
       pipe.clean_add (Sample.trimmed1 sample) true ;;
       pipe.clean_add (Sample.trimmed2 sample) true
   else mret ()) ;;
  (* Map *)
  pipe.timestamp "Mapping reads with Bowtie2" ;;
  genomeIndex ← getitem (Project.genomes (Project.annot (Project.config prj)))
                        (Sample.genome sample);
  let cmd := tk.bowtie2Map
               (Sample.trimmed1 sample IF paired ELSE Sample.trimmed sample)
               (Some (Sample.trimmed2 sample) IF paired ELSE None)
               (Sample.mapped sample)
               (Sample.alnRates sample)
               (Sample.alnMetrics sample)
               genomeIndex
               (Args.maxinsert args)
               (Args.cpus args) in
  pipe.call_lock cmd (Some (Sample.mapped sample)) None false ;;
  pipe.clean_add (Sample.mapped sample) true ;;
  (* Filter reads *)
  pipe.timestamp "Filtering reads for quality" ;;
  let cmd := tk.filterReads (Sample.mapped sample) (Sample.filtered sample)
               (Sample.dupsMetrics sample) paired
               (Args.cpus args) (Args.quality args) in
  pipe.call_lock cmd (Some (Sample.filtered sample)) None false ;;
  (* Shift reads *)
  when (Sample.tagmented sample)
    (pipe.timestamp "Shifting reads of tagmented sample" ;;
     let cmd := tk.shiftReads (Sample.filtered sample) (Sample.genome sample)
                  (Sample.filteredshifted sample) in
     pipe.call_lock cmd (Some (Sample.filteredshifted sample)) None false) ;;
  (* Index bams *)
  pipe.timestamp "Indexing bamfiles with samtools" ;;
  let cmd := tk.indexBam (Sample.mapped sample) in
  pipe.call_lock cmd (Some (Sample.mapped sample +:+ ".bai")) None false ;;
  let cmd := tk.indexBam (Sample.filtered sample) in
  pipe.call_lock cmd (Some (Sample.filtered sample +:+ ".bai")) None false ;;
  when (Sample.tagmented sample)
    (let cmd := tk.indexBam (Sample.filteredshifted sample) in
     pipe.call_lock cmd (Some (Sample.filteredshifted sample +:+ ".bai"))
       None false) ;;
  (* Make tracks *)
  pipe.timestamp "Making bigWig tracks from bam file" ;;
  genomeSizes ← getitem (Project.chrsizes (Project.annot (Project.config prj)))
                        (Sample.genome sample);
  let cmd := tk.bamToBigWig (Sample.filteredshifted sample)
               (Sample.bigwig sample) genomeSizes (Sample.genome sample)
               false true in
  pipe.call_lock cmd (Some (Sample.bigwig sample)) None false ;;
  let cmd := tk.addTrackToHub (Sample.name sample) (Sample.trackURL sample)
               (path_join (Project.html (Project.dirs prj))
                  ("trackHub_" +:+ Sample.genome sample +:+ ".txt"))
               (Sample.trackColour sample) in
  pipe.call_lock cmd None (Some (Sample.name sample +:+ "addToTrackHub"))
    false ;;
  request (Invoke (tk.linkToTrackHub
    (slash_join [Project.url (Project.config prj); Project.name prj;
                 "trackHub_" +:+ Sample.genome sample +:+ ".txt"])
    (path_join (Project.root (Project.dirs prj))
       ("ucsc_tracks_" +:+ Sample.genome sample +:+ ".html"))
    (Sample.genome sample))) ;;
  (* Plot fragment distribution *)
  pipe.timestamp "Plotting insert size distribution" ;;
  request (Invoke (tk.plotInsertSizesFit (Sample.filtered sample)
    (Sample.insertplot sample) (Sample.insertdata sample))) ;;
  (* Count coverage genome-wide *)
  pipe.timestamp "Calculating genome-wide coverage" ;;
  genomeWindows ← getitem
    (Project.genomewindows (Project.annot (Project.config prj)))
    (Sample.genome sample);
  let cmd := tk.genomeWideCoverage (Sample.filteredshifted sample)
               genomeWindows (Sample.coverage sample) in
  pipe.call_lock cmd (Some (Sample.coverage sample)) None false ;;
  (* Calculate NSC, RSC *)
  pipe.timestamp "Assessing signal/noise in sample" ;;
  let cmd := tk.peakTools (Sample.filteredshifted sample) (Sample.qc sample)
               (Sample.qcPlot sample) (Args.cpus args) in
  pipe.call_lock cmd (Some (Sample.qcPlot sample)) None true ;;
  (* Call peaks *)
  pipe.timestamp "Calling peaks with MACS2" ;;
  (* make dir for output (macs fails if it does not exist) *)
  request (EnsureDir (SampleDirs.peaks (Sample.dirs sample))) ;;
  let cmd := tk.macs2CallPeaksATACSeq (Sample.filteredshifted sample)
               (SampleDirs.peaks (Sample.dirs sample)) (Sample.name sample)
               (Sample.genome sample) in
  pipe.call_lock cmd (Some (Sample.peaks sample)) None false ;;
  (* Calculate fraction of reads in peaks (FRiP) *)
  pipe.timestamp "Calculating fraction of reads in peaks (FRiP)" ;;
  let cmd := tk.calculateFRiP (Sample.filteredshifted sample)
               (Sample.peaks sample) (Sample.frip sample) in
  pipe.call_lock cmd (Some (Sample.frip sample)) None false.

(** What one call [process(args, prj, sample)] asks for: the requests in
    the order they are issued, the descriptor as the call leaves it, and
    whether the driver itself raised while building a request. *)
Definition driver_run (args : Args.t) (prj : Project.t) (sample : Sample.t)
  : outcome () * DState :=
  process args prj (mkDState sample []).

Definition requests (args : Args.t) (prj : Project.t) (sample : Sample.t)
  : list Request :=
  issued (driver_run args prj sample).2.

Definition sample_after (args : Args.t) (prj : Project.t) (sample : Sample.t)
  : Sample.t :=
  the_sample (driver_run args prj sample).2.

Definition driver_raised (args : Args.t) (prj : Project.t) (sample : Sample.t)
  : option exn :=
  match (driver_run args prj sample).1 with
  | Returned _ => None
  | Raised e => Some e
  end.

(** ** The step executor and the filesystem *)

(** How one external invocation ends. *)
Inductive Status :=
  | ExitOk
  | ExitFail
  | Interrupted.

Record Effect := mkEffect {
  status : Status;
  writes : list string
}.

(** How [os.makedirs] ends: the directory and its missing ancestors are
    made, or it raises [OSError], having made some directories or none. *)
Inductive Made :=
  | AllMade
  | MadeThenRaised (partial : list string).

(** The tools behind the commands and behind the two direct toolkit
    calls, and the operating system behind [os.makedirs] and [os.system]:
    what an invocation does depends on the command and on the files
    present.  Of a shell command only the files it leaves behind are
    kept, since the driver drops its exit status. *)
Record Env := mkEnv {
  run_cmd : tk.Cmd → gset string → Effect;
  run_call : tk.Call → gset string → Effect;
  os_makedirs : string → gset string → Made;
  os_system : string → gset string → gset string
}.

Record World := mkWorld {
  files : gset string;
  registry : list (string * bool)
}.

(** How serving one request ends: [Errored] is a call of the driver
    itself that raised [OSError]. *)
Inductive StepResult :=
  | Logged
  | Skipped
  | Completed
  | Failed (nofail : bool)
  | Cancelled
  | Errored.

Definition result_of (nofail : bool) (s : Status) : StepResult :=
  match s with
  | ExitOk => Completed
  | ExitFail => Failed nofail
  | Interrupted => Cancelled
  end.

(** The exception a result sends up the driver, if any. *)
Definition raised_by (r : StepResult) : option exn :=
  match r with
  | Failed false => Some ToolFailure
  | Cancelled => Some KeyboardInterrupt
  | Errored => Some OSError
  | Logged | Skipped | Completed | Failed true => None
  end.

Definition write (ps : list string) (w : World) : World :=
  mkWorld (files w ∪ list_to_set ps) (registry w).

Definition invoke (e : Effect) (nofail : bool) (w : World)
  : StepResult * World :=
  (result_of nofail (status e), write (writes e) w).

(** Modelled from the spec: the step executor ([pypiper]'s [call_lock] is
    not among the sources).  A step whose declared target exists is
    skipped with no side effect; otherwise the command is invoked, a
    non-zero exit aborts the workflow unless the step is [nofail], and a
    zero exit completes the step without looking at the target again.  A
    step declared without a target has no completion witness and is
    invoked.  One workflow instance runs alone, so a lock is always free
    when asked for. *)
Definition call_lock (env : Env) (cmd : tk.Cmd) (target : option string)
    (nofail : bool) (w : World) : StepResult * World :=
  match target with
  | Some t =>
      if bool_decide (t ∈ files w) then (Skipped, w)
      else invoke (run_cmd env cmd (files w)) nofail w
  | None => invoke (run_cmd env cmd (files w)) nofail w
  end.

(** The directories [os.makedirs(path)] creates besides [path] itself: every
    proper prefix of [path] that stops in front of a slash. *)
Fixpoint prefixes_at_slash (seen rest : string) : list string :=
  match rest with
  | EmptyString => []
  | String c rest' =>
      (if String.eqb (String c EmptyString) "/" && negb (String.eqb seen "")
       then [seen] else []) ++
      prefixes_at_slash (seen +:+ String c EmptyString) rest'
  end.

Definition ancestors (path : string) : list string :=
  prefixes_at_slash "" path.

(** [if not os.path.exists(path): os.makedirs(path)], with no handler
    around it: a directory that is there is left alone; otherwise
    [os.makedirs] either creates it with its missing ancestors or raises
    [OSError], which travels up the driver. *)
Definition ensure_dir (env : Env) (path : string) (w : World)
  : StepResult * World :=
  if bool_decide (path ∈ files w) then (Logged, w)
  else match os_makedirs env path (files w) with
       | AllMade => (Logged, write (path :: ancestors path) w)
       | MadeThenRaised partial => (Errored, write partial w)
       end.

(** How each request is served.  A direct toolkit call stands in the
    driver with no handler around it, so an exception it raises travels
    up like the abort of a step that is not [nofail]; an interruption
    surfaces as [KeyboardInterrupt] wherever it strikes. *)
Definition execute (env : Env) (r : Request) (w : World)
  : StepResult * World :=
  match r with
  | Timestamp _ => (Logged, w)
  | CallLock cmd target _ _ nofail => call_lock env cmd target nofail w
  | CleanAdd path conditional =>
      (Logged, mkWorld (files w) (registry w ++ [(path, conditional)]))
  | Invoke call => invoke (run_call env call (files w)) false w
  | EnsureDir path => ensure_dir env path w
  end.

Record Trace := mkTrace {
  log : list (Request * StepResult);
  final : World;
  ending : option exn
}.

(** Requests are served in order; the first result that raises ends the
    run. *)
Fixpoint run (env : Env) (rs : list Request) (w : World) : Trace :=
  match rs with
  | [] => mkTrace [] w None
  | r :: rest =>
      let '(res, w') := execute env r w in
      match raised_by res with
      | Some e => mkTrace [(r, res)] w' (Some e)
      | None =>
          let t := run env rest w' in
          mkTrace ((r, res) :: log t) (final t) (ending t)
      end
  end.

(** One call of [process] against the tools and the filesystem. *)
Definition run_process (env : Env) (args : Args.t) (prj : Project.t)
    (sample : Sample.t) (w : World) : Trace :=
  let t := run env (requests args prj sample) w in
  match ending t with
  | Some _ => t
  | None => mkTrace (log t) (final t) (driver_raised args prj sample)
  end.

(** ** [main] and the [__main__] guard *)

(** [main()], from the point where the pickle has been read; it always
    leaves by an exception, [sys.exit(0)] at best.  The pickle is removed
    by handing the string ["rm %s" % samplePickle] to a shell: what that
    does to the files is the shell's business, and its exit status is
    dropped. *)
Definition main (env : Env) (samplePickle : string)
    (pickled : Project.t * Sample.t * Args.t) (w : World) : exn * World :=
  let '(prj, sample, args) := pickled in
  let t := run_process env args prj sample w in
  match ending t with
  | Some e => (e, final t)
  | None =>
      let w' := final t in
      (* if not args.dry_run: os.system("rm %s" % samplePickle) *)
      (SystemExit 0,
       if Args.dry_run args then w'
       else mkWorld (os_system env ("rm " +:+ samplePickle) (files w'))
                    (registry w'))
  end.

(** The exit status of the process: [KeyboardInterrupt] is caught and
    turned into [sys.exit(1)], [SystemExit] carries its own code, and any
    other exception reaches the interpreter, which exits with status 1. *)
Definition exit_status (env : Env) (samplePickle : string)
    (pickled : Project.t * Sample.t * Args.t) (w : World) : Z :=
  match (main env samplePickle pickled w).1 with
  | KeyboardInterrupt => 1
  | SystemExit code => code
  | KeyError _ | ToolFailure | OSError => 1
  end.

(** ** Reading requests and logs *)

Definition cmd_of (r : Request) : option tk.Cmd :=
  match r with
  | CallLock cmd _ _ _ _ => Some cmd
  | _ => None
  end.

Definition target_of (r : Request) : option string :=
  match r with
  | CallLock _ target _ _ _ => target
  | _ => None
  end.

(** The artifacts registered for disposal. *)
Definition disposals (rs : list Request) : list (string * bool) :=
  omap (λ r, match r with
             | CleanAdd path conditional => Some (path, conditional)
             | _ => None
             end) rs.

(** The requests that ended in an external invocation. *)
Definition invoked (res : StepResult) : bool :=
  match res with
  | Completed | Failed _ | Cancelled => true
  | Logged | Skipped | Errored => false
  end.

Definition invocations (l : list (Request * StepResult)) : list Request :=
  (filter (λ e, invoked e.2 = true) l).*1.

(** Requests the executor serves without running anything, provided the
    declared target is in place: log lines, disposal registrations and
    commands that declare a target. *)
Definition passive (r : Request) : Prop :=
  match r with
  | Timestamp _ | CleanAdd _ _ => True
  | CallLock _ (Some _) _ _ _ => True
  | CallLock _ None _ _ _ | Invoke _ | EnsureDir _ => False
  end.

(** The requests before the timestamp [msg], and from it on. *)
Fixpoint before_mark (msg : string) (rs : list Request) : list Request :=
  match rs with
  | [] => []
  | r :: rest =>
      match r with
      | Timestamp m =>
          if String.eqb m msg then [] else r :: before_mark msg rest
      | _ => r :: before_mark msg rest
      end
  end.

Fixpoint from_mark (msg : string) (rs : list Request) : list Request :=
  match rs with
  | [] => []
  | r :: rest =>
      match r with
      | Timestamp m =>
          if String.eqb m msg then rs else from_mark msg rest
      | _ => from_mark msg rest
      end
  end.

Definition TRIM : string := "Trimming adapters from sample".
Definition ALIGN : string := "Mapping reads with Bowtie2".

(** What the driver asks for between the trim and the align timestamps. *)
Definition trim_step (rs : list Request) : list Request :=
  before_mark ALIGN (tail (from_mark TRIM rs)).

(** The steps of the workflow, named by the command or the call behind
    them. *)
Inductive Step :=
  | Merge
  | QualityReport
  | FormatConversion
  | Trim
  | Align
  | QualityFilter
  | Shift
  | Index
  | SignalTrack
  | HubRegistration
  | HubLink
  | FragmentSize
  | Coverage
  | SignalNoise
  | PeakCalling
  | ReadsInPeaks.

#[global] Instance Step_eq_dec : EqDecision Step.
Proof. solve_decision. Defined.

Definition step_of_cmd (c : tk.Cmd) : Step :=
  match c with
  | tk.mergeBams _ _ => Merge
  | tk.fastqc _ _ _ => QualityReport
  | tk.bam2fastq _ _ _ _ => FormatConversion
  | tk.trimmomatic _ _ _ _ _ _ _ _ _ => Trim
  | tk.skewer _ _ _ _ _ _ _ _ => Trim
  | tk.bowtie2Map _ _ _ _ _ _ _ _ => Align
  | tk.filterReads _ _ _ _ _ _ => QualityFilter
  | tk.shiftReads _ _ _ => Shift
  | tk.indexBam _ => Index
  | tk.bamToBigWig _ _ _ _ _ _ => SignalTrack
  | tk.addTrackToHub _ _ _ _ => HubRegistration
  | tk.genomeWideCoverage _ _ _ => Coverage
  | tk.peakTools _ _ _ _ => SignalNoise
  | tk.macs2CallPeaksATACSeq _ _ _ _ => PeakCalling
  | tk.calculateFRiP _ _ _ => ReadsInPeaks
  end.

Definition step_of (r : Request) : option Step :=
  match r with
  | CallLock cmd _ _ _ _ => Some (step_of_cmd cmd)
  | Invoke (tk.linkToTrackHub _ _ _) => Some HubLink
  | Invoke (tk.plotInsertSizesFit _ _ _) => Some FragmentSize
  | Timestamp _ | CleanAdd _ _ | EnsureDir _ => None
  end.

Definition steps (rs : list Request) : list Step := omap step_of rs.

(** Consecutive repetitions of one step count once (the index step
    covers several files). *)
Fixpoint collapse (l : list Step) : list Step :=
  match l with
  | [] => []
  | a :: rest =>
      match rest with
      | b :: _ => if bool_decide (a = b) then collapse rest else a :: collapse rest
      | [] => [a]
      end
  end.

(** The BAM a step downstream of the quality filter reads. *)
Definition downstream_bam (c : tk.Cmd) : option string :=
  match c with
  | tk.bamToBigWig inputBam _ _ _ _ _ => Some inputBam
  | tk.genomeWideCoverage inputBam _ _ => Some inputBam
  | tk.peakTools inputBam _ _ _ => Some inputBam
  | tk.macs2CallPeaksATACSeq treatmentBam _ _ _ => Some treatmentBam
  | tk.calculateFRiP inputBam _ _ => Some inputBam
  | _ => None
  end.

Definition downstream_bams (rs : list Request) : list (Step * string) :=
  omap (λ r, c ← cmd_of r; b ← downstream_bam c; Some (step_of_cmd c, b)) rs.

(** The raw input the quality report and the format conversion read. *)
Definition raw_input (c : tk.Cmd) : option RawBam :=
  match c with
  | tk.fastqc inputBam _ _ => Some inputBam
  | tk.bam2fastq inputBam _ _ _ => Some inputBam
  | _ => None
  end.

Definition raw_inputs (rs : list Request) : list (Step * RawBam) :=
  omap (λ r, c ← cmd_of r; b ← raw_input c; Some (step_of_cmd c, b)) rs.

(** The reads the alignment step is given. *)
Definition align_reads (c : tk.Cmd) : option (string * option string) :=
  match c with
  | tk.bowtie2Map inputFastq1 inputFastq2 _ _ _ _ _ _ =>
      Some (inputFastq1, inputFastq2)
  | _ => None
  end.

Definition aligned (rs : list Request) : list (string * option string) :=
  omap (λ r, cmd_of r ≫= align_reads) rs.

(** The targets the requests declare to the executor. *)
Definition targets (rs : list Request) : list string := omap target_of rs.

(** The reads the alignment step takes from the descriptor. *)
Definition trimmed_reads (sample : Sample.t) : string * option string :=
  if Sample.paired sample
  then (Sample.trimmed1 sample, Some (Sample.trimmed2 sample))
  else (Sample.trimmed sample, None).

(** [issues m s l o s']: from descriptor [s], whatever was issued before,
    [m] issues exactly [l], ends with [o] and leaves descriptor [s']. *)
Definition issues {A} (m : Driver A) (s : Sample.t) (l : list Request)
    (o : outcome A) (s' : Sample.t) : Prop :=
  ∀ rs, m (mkDState s rs) = (o, mkDState s' (rs ++ l)).

(** ** The script the driver follows

    The requests of one call of [process], written out as lists, phase by
    phase; [process_plan] below proves that [process] issues exactly
    these. *)

(** The descriptor once the merge phase is over. *)
Definition merged (sample : Sample.t) : Sample.t :=
  match Sample.unmappedBam sample with
  | BamList _ =>
      Sample.set_unmappedBam (BamPath (Sample.unmapped sample)) sample
  | BamPath _ => sample
  end.

Definition merge_plan (sample : Sample.t) : list Request :=
  match Sample.unmappedBam sample with
  | BamList inputBams =>
      [ Timestamp "Merging bam files from replicates";
        CallLock (tk.mergeBams inputBams (Sample.unmapped sample))
          (Some (Sample.unmapped sample)) None true false ]
  | BamPath _ => []
  end.

Definition upstream_plan (s : Sample.t) : list Request :=
  let paired := Sample.paired s in
  [ Timestamp "Measuring sample quality with Fastqc";
    CallLock
      (tk.fastqc (Sample.unmappedBam s)
         (SampleDirs.sampleRoot (Sample.dirs s)) (Sample.name s))
      (Some (path_join (SampleDirs.sampleRoot (Sample.dirs s))
                       (Sample.name s +:+ "_fastqc.zip")))
      None true false;
    Timestamp "Converting to Fastq format";
    CallLock
      (tk.bam2fastq (Sample.unmappedBam s)
         (Sample.fastq1 s IF paired ELSE Sample.fastq s)
         (Some (Sample.fastq2 s) IF paired ELSE None)
         (Some (Sample.fastqUnpaired s) IF paired ELSE None))
      (Some (Sample.fastq1 s IF paired ELSE Sample.fastq s))
      None true false ] ++
  (if negb paired then [ CleanAdd (Sample.fastq s) true ] else []) ++
  (if paired
   then [ CleanAdd (Sample.fastq1 s) true;
          CleanAdd (Sample.fastq2 s) true;
          CleanAdd (Sample.fastqUnpaired s) true ]
   else []).

Definition trim_plan (args : Args.t) (prj : Project.t) (s : Sample.t)
  : list Request :=
  let paired := Sample.paired s in
  if String.eqb (Args.trimmer args) "trimmomatic" then
    CallLock
      (tk.trimmomatic
         (Sample.fastq1 s IF paired ELSE Sample.fastq s)
         (Some (Sample.fastq2 s) IF paired ELSE None)
         (Sample.trimmed1 s IF paired ELSE Sample.trimmed s)
         (Some (Sample.trimmed1Unpaired s) IF paired ELSE None)
         (Some (Sample.trimmed2 s) IF paired ELSE None)
         (Some (Sample.trimmed2Unpaired s) IF paired ELSE None)
         (Args.cpus args) (Project.adapters (Project.config prj))
         (Sample.trimlog s))
      (Some (Sample.trimmed1 s IF paired ELSE Sample.trimmed s))
      None true false ::
    (if negb paired
     then [ CleanAdd (Sample.trimmed s) true ]
     else [ CleanAdd (Sample.trimmed1 s) true;
            CleanAdd (Sample.trimmed1Unpaired s) true;
            CleanAdd (Sample.trimmed2 s) true;
            CleanAdd (Sample.trimmed2Unpaired s) true ])
  else if String.eqb (Args.trimmer args) "skewer" then
    CallLock
      (tk.skewer
         (Sample.fastq1 s IF paired ELSE Sample.fastq s)
         (Some (Sample.fastq2 s) IF paired ELSE None)
         (path_join (SampleDirs.unmapped (Sample.dirs s)) (Sample.name s))
         (Sample.trimmed1 s IF paired ELSE Sample.trimmed s)
         (Some (Sample.trimmed2 s) IF paired ELSE None)
         (Sample.trimlog s) (Args.cpus args)
         (Project.adapters (Project.config prj)))
      (Some (Sample.trimmed1 s IF paired ELSE Sample.trimmed s))
      None true false ::
    (if negb paired
     then [ CleanAdd (Sample.trimmed s) true ]
     else [ CleanAdd (Sample.trimmed1 s) true;
            CleanAdd (Sample.trimmed2 s) true ])
  else [].

(** From the alignment command to the track timestamp. *)
Definition align_plan (args : Args.t) (s : Sample.t) (genomeIndex : string)
  : list Request :=
  let paired := Sample.paired s in
  [ CallLock
      (tk.bowtie2Map
         (Sample.trimmed1 s IF paired ELSE Sample.trimmed s)
         (Some (Sample.trimmed2 s) IF paired ELSE None)
         (Sample.mapped s) (Sample.alnRates s) (Sample.alnMetrics s)
         genomeIndex (Args.maxinsert args) (Args.cpus args))
      (Some (Sample.mapped s)) None true false;
    CleanAdd (Sample.mapped s) true;
    Timestamp "Filtering reads for quality";
    CallLock
      (tk.filterReads (Sample.mapped s) (Sample.filtered s)
         (Sample.dupsMetrics s) paired (Args.cpus args) (Args.quality args))
      (Some (Sample.filtered s)) None true false ] ++
  (if Sample.tagmented s
   then [ Timestamp "Shifting reads of tagmented sample";
          CallLock
            (tk.shiftReads (Sample.filtered s) (Sample.genome s)
               (Sample.filteredshifted s))
            (Some (Sample.filteredshifted s)) None true false ]
   else []) ++
  [ Timestamp "Indexing bamfiles with samtools";
    CallLock (tk.indexBam (Sample.mapped s))
      (Some (Sample.mapped s +:+ ".bai")) None true false;
    CallLock (tk.indexBam (Sample.filtered s))
      (Some (Sample.filtered s +:+ ".bai")) None true false ] ++
  (if Sample.tagmented s
   then [ CallLock (tk.indexBam (Sample.filteredshifted s))
            (Some (Sample.filteredshifted s +:+ ".bai")) None true false ]
   else []) ++
  [ Timestamp "Making bigWig tracks from bam file" ].

(** From the track command to the coverage timestamp. *)
Definition track_plan (prj : Project.t) (s : Sample.t) (genomeSizes : string)
  : list Request :=
  [ CallLock
      (tk.bamToBigWig (Sample.filteredshifted s) (Sample.bigwig s)
         genomeSizes (Sample.genome s) false true)
      (Some (Sample.bigwig s)) None true false;
    CallLock
      (tk.addTrackToHub (Sample.name s) (Sample.trackURL s)
         (path_join (Project.html (Project.dirs prj))
            ("trackHub_" +:+ Sample.genome s +:+ ".txt"))
         (Sample.trackColour s))
      None (Some (Sample.name s +:+ "addToTrackHub")) true false;
    Invoke
      (tk.linkToTrackHub
         (slash_join [ Project.url (Project.config prj); Project.name prj;
                       "trackHub_" +:+ Sample.genome s +:+ ".txt" ])
         (path_join (Project.root (Project.dirs prj))
            ("ucsc_tracks_" +:+ Sample.genome s +:+ ".html"))
         (Sample.genome s));
    Timestamp "Plotting insert size distribution";
    Invoke
      (tk.plotInsertSizesFit (Sample.filtered s) (Sample.insertplot s)
         (Sample.insertdata s));
    Timestamp "Calculating genome-wide coverage" ].

(** From the coverage command to the end. *)
Definition peaks_plan (args : Args.t) (s : Sample.t) (genomeWindows : string)
  : list Request :=
  [ CallLock
      (tk.genomeWideCoverage (Sample.filteredshifted s) genomeWindows
         (Sample.coverage s))
      (Some (Sample.coverage s)) None true false;
    Timestamp "Assessing signal/noise in sample";
    CallLock
      (tk.peakTools (Sample.filteredshifted s) (Sample.qc s)
         (Sample.qcPlot s) (Args.cpus args))
      (Some (Sample.qcPlot s)) None true true;
    Timestamp "Calling peaks with MACS2";
    EnsureDir (SampleDirs.peaks (Sample.dirs s));
    CallLock
      (tk.macs2CallPeaksATACSeq (Sample.filteredshifted s)
         (SampleDirs.peaks (Sample.dirs s)) (Sample.name s)
         (Sample.genome s))
      (Some (Sample.peaks s)) None true false;
    Timestamp "Calculating fraction of reads in peaks (FRiP)";
    CallLock
      (tk.calculateFRiP (Sample.filteredshifted s) (Sample.peaks s)
         (Sample.frip s))
      (Some (Sample.frip s)) None true false ].

(** The three genome-keyed lookups, in the order the driver makes them. *)
Definition lookups (prj : Project.t) (s : Sample.t)
  : option string * option string * option string :=
  let a := Project.annot (Project.config prj) in
  (Project.genomes a !! Sample.genome s,
   Project.chrsizes a !! Sample.genome s,
   Project.genomewindows a !! Sample.genome s).

(** From the alignment on, where a missing genome key cuts the script. *)
Definition downstream_plan (args : Args.t) (prj : Project.t) (s : Sample.t)
  : list Request :=
  match lookups prj s with
  | (None, _, _) => []
  | (Some genomeIndex, None, _) => align_plan args s genomeIndex
  | (Some genomeIndex, Some genomeSizes, None) =>
      align_plan args s genomeIndex ++ track_plan prj s genomeSizes
  | (Some genomeIndex, Some genomeSizes, Some genomeWindows) =>
      align_plan args s genomeIndex ++ track_plan prj s genomeSizes ++
      peaks_plan args s genomeWindows
  end.

Definition plan (args : Args.t) (prj : Project.t) (sample : Sample.t)
  : list Request :=
  let s := merged sample in
  merge_plan sample ++ upstream_plan s ++
  [ Timestamp TRIM ] ++ trim_plan args prj s ++
  [ Timestamp ALIGN ] ++ downstream_plan args prj s.

(** The [KeyError] of the first lookup that fails, if one does. *)
Definition plan_raised (prj : Project.t) (s : Sample.t) : option exn :=
  match lookups prj s with
  | (Some _, Some _, Some _) => None
  | _ => Some (KeyError (Sample.genome s))
  end.

(** Every genome-keyed table of the project knows the sample's genome. *)
Definition resolves (prj : Project.t) (s : Sample.t) : Prop :=
  ∃ genomeIndex genomeSizes genomeWindows,
    lookups prj s = (Some genomeIndex, Some genomeSizes, Some genomeWindows).

(** ** Files read and written, as the calls declare them *)

(** The files a command is told to read: its [input*] arguments,
    [treatmentBam] and [inputBed], and the reference files it is pointed
    at ([adapters], [genomeIndex], [genomeSizes], [genomeWindows]). *)
Definition inputs (c : tk.Cmd) : list string :=
  let opt (o : option string) := match o with Some p => [p] | None => [] end in
  match c with
  | tk.mergeBams inputBams _ => inputBams
  | tk.fastqc inputBam _ _ => Sample.raw_paths inputBam
  | tk.bam2fastq inputBam _ _ _ => Sample.raw_paths inputBam
  | tk.trimmomatic inputFastq1 inputFastq2 _ _ _ _ _ adapters _ =>
      inputFastq1 :: opt inputFastq2 ++ [adapters]
  | tk.skewer inputFastq1 inputFastq2 _ _ _ _ _ adapters =>
      inputFastq1 :: opt inputFastq2 ++ [adapters]
  | tk.bowtie2Map inputFastq1 inputFastq2 _ _ _ genomeIndex _ _ =>
      inputFastq1 :: opt inputFastq2 ++ [genomeIndex]
  | tk.filterReads inputBam _ _ _ _ _ => [inputBam]
  | tk.shiftReads inputBam _ _ => [inputBam]
  | tk.indexBam inputBam => [inputBam]
  | tk.bamToBigWig inputBam _ genomeSizes _ _ _ => [inputBam; genomeSizes]
  | tk.addTrackToHub _ _ _ _ => []
  | tk.genomeWideCoverage inputBam genomeWindows _ =>
      [inputBam; genomeWindows]
  | tk.peakTools inputBam _ _ _ => [inputBam]
  | tk.macs2CallPeaksATACSeq treatmentBam _ _ _ => [treatmentBam]
  | tk.calculateFRiP inputBam inputBed _ => [inputBam; inputBed]
  end.

(** The files a command is told to write: its [output*] arguments and log
    files. *)
Definition outputs (c : tk.Cmd) : list string :=
  let opt (o : option string) := match o with Some p => [p] | None => [] end in
  match c with
  | tk.mergeBams _ outputBam => [outputBam]
  | tk.fastqc _ outputDir _ => [outputDir]
  | tk.bam2fastq _ outputFastq outputFastq2 unpairedFastq =>
      outputFastq :: opt outputFastq2 ++ opt unpairedFastq
  | tk.trimmomatic _ _ outputFastq1 outputFastq1unpaired outputFastq2
      outputFastq2unpaired _ _ log =>
      outputFastq1 :: opt outputFastq1unpaired ++ opt outputFastq2 ++
      opt outputFastq2unpaired ++ [log]
  | tk.skewer _ _ outputPrefix outputFastq1 outputFastq2 trimLog _ _ =>
      outputPrefix :: outputFastq1 :: opt outputFastq2 ++ [trimLog]
  | tk.bowtie2Map _ _ outputBam log metrics _ _ _ => [outputBam; log; metrics]
  | tk.filterReads _ outputBam metricsFile _ _ _ => [outputBam; metricsFile]
  | tk.shiftReads _ _ outputBam => [outputBam]
  | tk.indexBam _ => []
  | tk.bamToBigWig _ outputBigWig _ _ _ _ => [outputBigWig]
  | tk.addTrackToHub _ _ trackHub _ => [trackHub]
  | tk.genomeWideCoverage _ _ output => [output]
  | tk.peakTools _ output plot _ => [output; plot]
  | tk.macs2CallPeaksATACSeq _ outputDir _ _ => [outputDir]
  | tk.calculateFRiP _ _ output => [output]
  end.

Definition reads (r : Request) : list string :=
  match r with
  | CallLock cmd _ _ _ _ => inputs cmd
  | Invoke (tk.plotInsertSizesFit bam _ _) => [bam]
  | Invoke (tk.linkToTrackHub _ _ _) => []
  | Timestamp _ | CleanAdd _ _ | EnsureDir _ => []
  end.

(** What a request declares as written: the output arguments and the
    target handed to the executor. *)
Definition declares (r : Request) : list string :=
  match r with
  | CallLock cmd target _ _ _ =>
      outputs cmd ++ match target with Some t => [t] | None => [] end
  | Invoke (tk.plotInsertSizesFit _ plot outputCSV) => [plot; outputCSV]
  | Invoke (tk.linkToTrackHub _ fileName _) => [fileName]
  | EnsureDir path => [path]
  | Timestamp _ | CleanAdd _ _ => []
  end.

(** Every request reads only what is known so far: the files known at the
    start and what earlier requests declared. *)
Fixpoint fed (known : list string) (rs : list Request) : Prop :=
  match rs with
  | [] => True
  | r :: rest =>
      Forall (λ p, p ∈ known) (reads r) ∧ fed (declares r ++ known) rest
  end.

(** The arguments that exist only for the second read of a pair. *)
Definition pair_arguments (c : tk.Cmd) : list (option string) :=
  match c with
  | tk.bam2fastq _ _ outputFastq2 unpairedFastq =>
      [outputFastq2; unpairedFastq]
  | tk.trimmomatic _ inputFastq2 _ outputFastq1unpaired outputFastq2
      outputFastq2unpaired _ _ _ =>
      [inputFastq2; outputFastq1unpaired; outputFastq2; outputFastq2unpaired]
  | tk.skewer _ inputFastq2 _ _ outputFastq2 _ _ _ =>
      [inputFastq2; outputFastq2]
  | tk.bowtie2Map _ inputFastq2 _ _ _ _ _ _ => [inputFastq2]
  | _ => []
  end.

(** The flags of the calls handed to the executor. *)
Definition flags (r : Request) : option (Step * bool * bool) :=
  match r with
  | CallLock cmd _ _ shell nofail => Some (step_of_cmd cmd, shell, nofail)
  | _ => None
  end.

(** ** Concrete inputs *)

Module Ex.
Definition dirs : SampleDirs.t :=
  SampleDirs.mk "/out/s1" "/out/s1/unmapped" "/out/s1/peaks".

Definition sample (paired tagmented : bool) (raw : RawBam) : Sample.t :=
  Sample.mk "s1" dirs "hg19" paired tagmented raw
    "/out/s1/unmapped/s1.bam"
    "/out/s1/unmapped/s1.fastq"
    "/out/s1/unmapped/s1.1.fastq"
    "/out/s1/unmapped/s1.2.fastq"
    "/out/s1/unmapped/s1.unpaired.fastq"
    "/out/s1/unmapped/s1.trimmed.fastq"
    "/out/s1/unmapped/s1.1.trimmed.fastq"
    "/out/s1/unmapped/s1.2.trimmed.fastq"
    "/out/s1/unmapped/s1.1_unpaired.trimmed.fastq"
    "/out/s1/unmapped/s1.2_unpaired.trimmed.fastq"
    "/out/s1/unmapped/s1.trimlog.txt"
    "/out/s1/mapped/s1.trimmed.bowtie2.bam"
    "/out/s1/s1.alnRates.txt"
    "/out/s1/s1.alnMetrics.txt"
    "/out/s1/mapped/s1.trimmed.bowtie2.filtered.bam"
    "/out/s1/s1.duplicates.txt"
    "/out/s1/mapped/s1.trimmed.bowtie2.filtered.shifted.bam"
    "/out/html/s1.bigWig"
    "http://host/proj/s1.bigWig"
    "0,0,0"
    "/out/s1/s1_insertLengths.pdf"
    "/out/s1/s1_insertLengths.csv"
    "/out/s1/coverage/s1.cov"
    "/out/s1/s1_qc.tsv"
    "/out/s1/s1_qc.pdf"
    "/out/s1/peaks/s1_peaks.narrowPeak"
    "/out/s1/s1_FRiP.txt".

Definition replicates : RawBam := BamList ["/raw/s1_L1.bam"; "/raw/s1_L2.bam"].
Definition single : RawBam := BamPath "/raw/s1.bam".

Definition annot : Project.annotations :=
  Project.mk_annotations
    {[ "hg19" := "/genomes/hg19/bowtie2/hg19" ]}
    {[ "hg19" := "/genomes/hg19/hg19.chrom.sizes" ]}
    {[ "hg19" := "/genomes/hg19/hg19.1kb_windows.bed" ]}.

Definition prj : Project.t :=
  Project.mk "proj"
    (Project.mk_config "/adapters/nextera.fa" "http://host" annot)
    (Project.mk_dirs "/out/html" "/out").

Definition args (trimmer : string) : Args.t :=
  Args.mk trimmer 4 2000 30 false.

(** The words of a command line, split at blanks as a shell does with an
    unquoted string. *)
Fixpoint words_from (cur rest : string) : list string :=
  let flush := if String.eqb cur "" then [] else [cur] in
  match rest with
  | EmptyString => flush
  | String c rest' =>
      if String.eqb (String c EmptyString) " "
      then flush ++ words_from "" rest'
      else words_from (cur +:+ String c EmptyString) rest'
  end.

(** A shell that knows [rm]: every word after it is removed. *)
Definition shell (command : string) (fs : gset string) : gset string :=
  match words_from "" command with
  | w :: paths =>
      if String.eqb w "rm" then foldr (λ p left, left ∖ {[p]}) fs paths
      else fs
  | [] => fs
  end.

(** Tools that all exit with status zero and write nothing, except that
    the command picked by [on_cmd] or the call picked by [on_call] ends
    with [bad]; directories can always be created. *)
Definition env (on_cmd : Step → bool) (on_call : Step → bool)
    (bad : Status) : Env :=
  mkEnv
    (λ c _, mkEffect (if on_cmd (step_of_cmd c) then bad else ExitOk) [])
    (λ c _, mkEffect
              (if on_call (match c with
                           | tk.linkToTrackHub _ _ _ => HubLink
                           | tk.plotInsertSizesFit _ _ _ => FragmentSize
                           end)
               then bad else ExitOk) [])
    (λ _ _, AllMade)
    shell.

(** The same tools on a disk where no directory can be created. *)
Definition read_only (e : Env) : Env :=
  mkEnv (run_cmd e) (run_call e) (λ _ _, MadeThenRaised []) (os_system e).

Definition never (_ : Step) : bool := false.
Definition only (s : Step) (s' : Step) : bool := bool_decide (s = s').

Definition all_ok : Env := env never never ExitOk.

Definition empty : World := mkWorld ∅ [].

(** A filesystem on which every declared target is already there. *)
Definition done_world (rs : list Request) : World :=
  mkWorld (list_to_set (targets rs)) [].

(** Tools that exit with status zero and leave every target of the
    script [rs] behind. *)
Definition diligent (rs : list Request) : Env :=
  mkEnv (λ _ _, mkEffect ExitOk (targets rs)) (λ _ _, mkEffect ExitOk [])
    (λ _ _, AllMade) shell.

(** A project whose alignment indices do not know the genome. *)
Definition prj_without_index : Project.t :=
  Project.mk "proj"
    (Project.mk_config "/adapters/nextera.fa" "http://host"
       (Project.mk_annotations ∅ (Project.chrsizes annot)
          (Project.genomewindows annot)))
    (Project.mk_dirs "/out/html" "/out").
End Ex.

(** * Properties *)

(** ** The executor serves the requests in order *)

Section Executor.
Context (env : Env).

Lemma run_cons r rest w :
  run env (r :: rest) w =
    match raised_by (execute env r w).1 with
    | Some e => mkTrace [(r, (execute env r w).1)] (execute env r w).2 (Some e)
    | None =>
        let t := run env rest (execute env r w).2 in
        mkTrace ((r, (execute env r w).1) :: log t) (final t) (ending t)
    end.
Proof. simpl. destruct (execute env r w) as [res w']. reflexivity. Qed.

(** The log holds the requests served, one entry each, in order. *)
Lemma run_log_prefix rs w : (log (run env rs w)).*1 `prefix_of` rs.
Proof.
  revert w. induction rs as [|r rest IH]; intros w.
  - simpl. reflexivity.
  - rewrite run_cons. destruct (raised_by _); simpl.
    + apply prefix_cons, prefix_nil.
    + apply prefix_cons, IH.
Qed.

(** A run that ends without an exception served every request. *)
Lemma run_finished rs w :
  ending (run env rs w) = None → (log (run env rs w)).*1 = rs.
Proof.
  revert w. induction rs as [|r rest IH]; intros w.
  - reflexivity.
  - rewrite run_cons. destruct (raised_by _); simpl; [discriminate|].
    intros H. f_equal. apply IH, H.
Qed.

(** Only the last entry of a log can carry a raising result: after an
    entry that does not raise, the next request is served. *)
Lemma run_next rs w i r res r' :
  log (run env rs w) !! i = Some (r, res) →
  raised_by res = None →
  rs !! S i = Some r' →
  ∃ res', log (run env rs w) !! S i = Some (r', res').
Proof.
  revert w i. induction rs as [|r0 rest IH]; intros w i Hi Hres Hnext.
  - discriminate.
  - rewrite run_cons in Hi |- *.
    destruct (raised_by (execute env r0 w).1) eqn:Hr; simpl in *.
    + destruct i; simpl in Hi; [|discriminate].
      injection Hi as <- <-. congruence.
    + destruct i as [|i]; simpl in Hi.
      * injection Hi as <- <-. clear IH.
        destruct rest as [|r1 rest']; [discriminate|].
        injection Hnext as ->. rewrite run_cons.
        destruct (raised_by (execute env r' _).1); simpl; eauto.
      * eapply IH; eauto.
Qed.

Lemma run_log_lookup rs w i r res :
  log (run env rs w) !! i = Some (r, res) → rs !! i = Some r.
Proof.
  intros H. pose proof (run_log_prefix rs w) as [k Hk].
  rewrite Hk. apply lookup_app_l_Some.
  rewrite list_lookup_fmap, H. reflexivity.
Qed.

(** The disposal registry grows by the registrations served. *)
Lemma execute_registry r w :
  registry (execute env r w).2 = registry w ++ disposals [r].
Proof.
  destruct r; simpl; rewrite ?app_nil_r; try reflexivity.
  - unfold call_lock, invoke.
    destruct target; [case_bool_decide|]; reflexivity.
  - unfold ensure_dir.
    case_bool_decide; [|destruct (os_makedirs _ _ _)]; reflexivity.
Qed.

Lemma disposals_cons r rs :
  disposals (r :: rs) = disposals [r] ++ disposals rs.
Proof. destruct r; reflexivity. Qed.

Lemma run_registry rs w :
  registry (final (run env rs w)) =
    registry w ++ disposals (log (run env rs w)).*1.
Proof.
  revert w. induction rs as [|r rest IH]; intros w.
  - simpl. by rewrite app_nil_r.
  - rewrite run_cons. destruct (raised_by _) eqn:Hr; cbn [log final].
    + apply execute_registry.
    + rewrite fmap_cons, disposals_cons, IH, execute_registry, <- app_assoc.
      reflexivity.
Qed.

(** Files are only ever added while requests are served. *)
Lemma execute_files r w : files w ⊆ files (execute env r w).2.
Proof.
  destruct r; simpl; try set_solver.
  - unfold call_lock, invoke, write.
    destruct target; [case_bool_decide|]; simpl; set_solver.
  - unfold ensure_dir, write.
    case_bool_decide; [|destruct (os_makedirs _ _ _)]; simpl; set_solver.
Qed.

Lemma run_files rs w : files w ⊆ files (final (run env rs w)).
Proof.
  revert w. induction rs as [|r rest IH]; intros w.
  - reflexivity.
  - rewrite run_cons. pose proof (execute_files r w) as Hstep.
    destruct (raised_by _); simpl; [exact Hstep|].
    etrans; [exact Hstep|apply IH].
Qed.

(** When every declared target is already there, every step that
    declares one is skipped. *)
Lemma run_targets_exist rs w :
  Forall (λ r, ∀ t, target_of r = Some t → t ∈ files w) rs →
  Forall (λ e, ∀ t, target_of e.1 = Some t → e.2 = Skipped)
         (log (run env rs w)).
Proof.
  revert w. induction rs as [|r rest IH]; intros w Hall.
  - constructor.
  - rewrite run_cons. inversion Hall as [|? ? Hr Hrest]; subst.
    assert (Hhere : ∀ t, target_of r = Some t → (execute env r w).1 = Skipped).
    { intros t Ht. destruct r; simpl in Ht; try discriminate. subst target.
      simpl. rewrite bool_decide_eq_true_2; [reflexivity|]. by apply Hr. }
    destruct (raised_by _); simpl.
    + constructor; [exact Hhere|constructor].
    + constructor; [exact Hhere|]. apply IH.
      eapply Forall_impl; [exact Hrest|]. intros r' Hr' t Ht.
      apply (execute_files r w), Hr', Ht.
Qed.
End Executor.

(** ** What the driver issues *)

Section Issues.
Context {A B : Type}.

Lemma issues_mret (a : A) s : issues (mret a) s [] (Returned a) s.
Proof. intros rs. by rewrite app_nil_r. Qed.

Lemma issues_bind (m : Driver A) (f : A → Driver B) s l1 a s1 l2 o s2 :
  issues m s l1 (Returned a) s1 → issues (f a) s1 l2 o s2 →
  issues (m ≫= f) s (l1 ++ l2) o s2.
Proof.
  intros H1 H2 rs. unfold mbind, Driver_bind. rewrite H1, H2.
  by rewrite app_assoc.
Qed.

Lemma issues_if (c : bool) (m1 m2 : Driver A) s l1 l2 o s' :
  issues m1 s l1 o s' → issues m2 s l2 o s' →
  issues (if c then m1 else m2) s (if c then l1 else l2) o s'.
Proof. by destruct c. Qed.

Lemma issues_getitem table key (f : string → Driver B) s l o :
  (∀ v, issues (f v) s (l v) (o v) s) →
  issues (getitem table key ≫= f) s
    (match table !! key with Some v => l v | None => [] end)
    (match table !! key with
     | Some v => o v
     | None => Raised (KeyError key)
     end)
    s.
Proof.
  intros H rs. unfold getitem, mbind, Driver_bind.
  destruct (table !! key) as [v|]; simpl.
  - apply H.
  - by rewrite app_nil_r.
Qed.

Lemma issues_eq (m : Driver A) s l l' o o' s' :
  issues m s l o s' → l = l' → o = o' → issues m s l' o' s'.
Proof. by intros H <- <-. Qed.
End Issues.

Lemma issues_get s : issues get_sample s [] (Returned s) s.
Proof. intros rs. by rewrite app_nil_r. Qed.

Lemma issues_modify f s : issues (modify_sample f) s [] (Returned ()) (f s).
Proof. intros rs. by rewrite app_nil_r. Qed.

Lemma issues_request r s : issues (request r) s [r] (Returned ()) s.
Proof. intros rs. reflexivity. Qed.

Lemma issues_when c body s l :
  issues body s l (Returned ()) s →
  issues (when c body) s (if c then l else []) (Returned ()) s.
Proof. intros H. destruct c; [exact H|apply issues_mret]. Qed.

Ltac issue_step :=
  first
    [ apply issues_mret
    | apply issues_get
    | apply issues_modify
    | apply issues_request
    | eapply issues_getitem; intros ?
    | eapply issues_when
    | eapply issues_if
    | eapply issues_bind ].

(** The part of [process] after the merge phase issues the rest of the
    script and leaves the descriptor alone. *)
Lemma process_plan (args : Args.t) (prj : Project.t) (sample : Sample.t) :
  issues (process args prj) sample (plan args prj sample)
    (match plan_raised prj (merged sample) with
     | None => Returned ()
     | Some e => Raised e
     end)
    (merged sample).
Proof.
  unfold plan, merged, merge_plan, plan_raised, downstream_plan, lookups.
  destruct (Sample.unmappedBam sample) as [p|inputBams] eqn:Hraw.
  all: eapply issues_eq;
    [ unfold process, pipe.timestamp, pipe.call_lock, pipe.clean_add;
      eapply issues_bind; [apply issues_get|]; cbv beta; rewrite Hraw;
      repeat issue_step
    | unfold upstream_plan, trim_plan, align_plan, track_plan, peaks_plan,
        TRIM, ALIGN;
      cbn [app]; try rewrite !Hraw;
      repeat (destruct (_ !! _)); repeat (rewrite <- app_assoc; cbn [app]);
      reflexivity
    | repeat (destruct (_ !! _)); reflexivity ].
Qed.

Lemma requests_plan (args : Args.t) (prj : Project.t) (sample : Sample.t) :
  requests args prj sample = plan args prj sample.
Proof.
  unfold requests, driver_run. rewrite (process_plan args prj sample []).
  reflexivity.
Qed.

Lemma sample_after_merged (args : Args.t) (prj : Project.t)
    (sample : Sample.t) :
  sample_after args prj sample = merged sample.
Proof.
  unfold sample_after, driver_run. rewrite (process_plan args prj sample []).
  reflexivity.
Qed.

Lemma driver_raised_plan (args : Args.t) (prj : Project.t)
    (sample : Sample.t) :
  driver_raised args prj sample = plan_raised prj (merged sample).
Proof.
  unfold driver_raised, driver_run.
  rewrite (process_plan args prj sample []). cbn [fst].
  destruct (plan_raised prj (merged sample)); reflexivity.
Qed.

(** The merge phase touches [unmappedBam] and nothing else. *)
Lemma lookups_merged prj sample : lookups prj (merged sample) = lookups prj sample.
Proof. unfold merged. destruct (Sample.unmappedBam sample); reflexivity. Qed.

Lemma resolves_merged prj sample : resolves prj sample → resolves prj (merged sample).
Proof. unfold resolves. by rewrite lookups_merged. Qed.

Lemma resolves_not_raised prj s : resolves prj s → plan_raised prj s = None.
Proof. intros (g & c & w & H). unfold plan_raised. by rewrite H. Qed.

Lemma not_raised_resolves prj s : plan_raised prj s = None → resolves prj s.
Proof.
  unfold plan_raised, resolves.
  destruct (lookups prj s) as [[[g|] [c|]] [w|]]; try discriminate. eauto.
Qed.

(** ** Reading the script phase by phase *)

Lemma steps_app a b : steps (a ++ b) = steps a ++ steps b.
Proof. apply omap_app. Qed.
Lemma disposals_app a b : disposals (a ++ b) = disposals a ++ disposals b.
Proof. apply omap_app. Qed.
Lemma downstream_bams_app a b :
  downstream_bams (a ++ b) = downstream_bams a ++ downstream_bams b.
Proof. apply omap_app. Qed.
Lemma raw_inputs_app a b : raw_inputs (a ++ b) = raw_inputs a ++ raw_inputs b.
Proof. apply omap_app. Qed.
Lemma aligned_app a b : aligned (a ++ b) = aligned a ++ aligned b.
Proof. apply omap_app. Qed.
Lemma targets_app a b : targets (a ++ b) = targets a ++ targets b.
Proof. apply omap_app. Qed.

Ltac by_phase :=
  intros;
  unfold merged, merge_plan, upstream_plan, trim_plan, align_plan,
    track_plan, peaks_plan;
  repeat match goal with
         | |- context [Sample.unmappedBam ?s] =>
             is_var s; destruct (Sample.unmappedBam s)
         | |- context [Sample.paired ?s] => destruct (Sample.paired s)
         | |- context [Sample.tagmented ?s] => destruct (Sample.tagmented s)
         | |- context [String.eqb ?a ?b] => destruct (String.eqb a b)
         end;
  reflexivity.

Section Phases.
Context (args : Args.t) (prj : Project.t) (s : Sample.t).
Context (genomeIndex genomeSizes genomeWindows : string).

(** The steps of each phase. *)
Lemma steps_merge_plan :
  steps (merge_plan s) =
    match Sample.unmappedBam s with BamList _ => [Merge] | BamPath _ => [] end.
Proof. by_phase. Qed.

Lemma steps_upstream_plan :
  steps (upstream_plan s) = [QualityReport; FormatConversion].
Proof. by_phase. Qed.

Lemma steps_trim_plan :
  steps (trim_plan args prj s) =
    if String.eqb (Args.trimmer args) "trimmomatic" then [Trim]
    else if String.eqb (Args.trimmer args) "skewer" then [Trim]
    else [].
Proof. by_phase. Qed.

Lemma steps_align_plan :
  steps (align_plan args s genomeIndex) =
    [Align; QualityFilter] ++
    (if Sample.tagmented s then [Shift] else []) ++ [Index; Index] ++
    (if Sample.tagmented s then [Index] else []).
Proof. by_phase. Qed.

Lemma steps_track_plan :
  steps (track_plan prj s genomeSizes) =
    [SignalTrack; HubRegistration; HubLink; FragmentSize].
Proof. by_phase. Qed.

Lemma steps_peaks_plan :
  steps (peaks_plan args s genomeWindows) =
    [Coverage; SignalNoise; PeakCalling; ReadsInPeaks].
Proof. by_phase. Qed.

(** The disposal registrations of each phase. *)
Lemma disposals_merge_plan : disposals (merge_plan s) = [].
Proof. by_phase. Qed.

Lemma disposals_upstream_plan :
  disposals (upstream_plan s) =
    if Sample.paired s
    then [ (Sample.fastq1 s, true); (Sample.fastq2 s, true);
           (Sample.fastqUnpaired s, true) ]
    else [ (Sample.fastq s, true) ].
Proof. by_phase. Qed.

Lemma disposals_trim_plan :
  disposals (trim_plan args prj s) =
    if String.eqb (Args.trimmer args) "trimmomatic" then
      if Sample.paired s
      then [ (Sample.trimmed1 s, true); (Sample.trimmed1Unpaired s, true);
             (Sample.trimmed2 s, true); (Sample.trimmed2Unpaired s, true) ]
      else [ (Sample.trimmed s, true) ]
    else if String.eqb (Args.trimmer args) "skewer" then
      if Sample.paired s
      then [ (Sample.trimmed1 s, true); (Sample.trimmed2 s, true) ]
      else [ (Sample.trimmed s, true) ]
    else [].
Proof. by_phase. Qed.

Lemma disposals_align_plan :
  disposals (align_plan args s genomeIndex) = [ (Sample.mapped s, true) ].
Proof. by_phase. Qed.

Lemma disposals_track_plan : disposals (track_plan prj s genomeSizes) = [].
Proof. by_phase. Qed.

Lemma disposals_peaks_plan :
  disposals (peaks_plan args s genomeWindows) = [].
Proof. by_phase. Qed.

(** The BAM each downstream step reads. *)
Lemma downstream_bams_merge_plan : downstream_bams (merge_plan s) = [].
Proof. by_phase. Qed.

Lemma downstream_bams_upstream_plan : downstream_bams (upstream_plan s) = [].
Proof. by_phase. Qed.

Lemma downstream_bams_trim_plan :
  downstream_bams (trim_plan args prj s) = [].
Proof. by_phase. Qed.

Lemma downstream_bams_align_plan :
  downstream_bams (align_plan args s genomeIndex) = [].
Proof. by_phase. Qed.

Lemma downstream_bams_track_plan :
  downstream_bams (track_plan prj s genomeSizes) =
    [ (SignalTrack, Sample.filteredshifted s) ].
Proof. by_phase. Qed.

Lemma downstream_bams_peaks_plan :
  downstream_bams (peaks_plan args s genomeWindows) =
    [ (Coverage, Sample.filteredshifted s);
      (SignalNoise, Sample.filteredshifted s);
      (PeakCalling, Sample.filteredshifted s);
      (ReadsInPeaks, Sample.filteredshifted s) ].
Proof. by_phase. Qed.

(** The raw input the quality report and the conversion read. *)
Lemma raw_inputs_merge_plan : raw_inputs (merge_plan s) = [].
Proof. by_phase. Qed.

Lemma raw_inputs_upstream_plan :
  raw_inputs (upstream_plan s) =
    [ (QualityReport, Sample.unmappedBam s);
      (FormatConversion, Sample.unmappedBam s) ].
Proof. unfold upstream_plan. destruct (Sample.paired s); reflexivity. Qed.

Lemma raw_inputs_trim_plan : raw_inputs (trim_plan args prj s) = [].
Proof. by_phase. Qed.

Lemma raw_inputs_align_plan :
  raw_inputs (align_plan args s genomeIndex) = [].
Proof. by_phase. Qed.

Lemma raw_inputs_track_plan : raw_inputs (track_plan prj s genomeSizes) = [].
Proof. by_phase. Qed.

Lemma raw_inputs_peaks_plan :
  raw_inputs (peaks_plan args s genomeWindows) = [].
Proof. by_phase. Qed.

(** The reads the alignment takes. *)
Lemma aligned_merge_plan : aligned (merge_plan s) = [].
Proof. by_phase. Qed.

Lemma aligned_upstream_plan : aligned (upstream_plan s) = [].
Proof. by_phase. Qed.

Lemma aligned_trim_plan : aligned (trim_plan args prj s) = [].
Proof. by_phase. Qed.

Lemma aligned_align_plan :
  aligned (align_plan args s genomeIndex) = [ trimmed_reads s ].
Proof. unfold trimmed_reads. by_phase. Qed.

Lemma aligned_track_plan : aligned (track_plan prj s genomeSizes) = [].
Proof. by_phase. Qed.

Lemma aligned_peaks_plan : aligned (peaks_plan args s genomeWindows) = [].
Proof. by_phase. Qed.
End Phases.

(** Case on the raw input: in both cases the merged descriptor reads
    like the original one, field by field. *)
Ltac split_raw sample :=
  unfold merged;
  let Hraw := fresh "Hraw" in
  destruct (Sample.unmappedBam sample) as [?|?] eqn:Hraw;
  cbn [Sample.set_unmappedBam Sample.name Sample.dirs Sample.genome
       Sample.paired Sample.tagmented Sample.unmappedBam Sample.unmapped
       Sample.fastq Sample.fastq1 Sample.fastq2 Sample.fastqUnpaired
       Sample.trimmed Sample.trimmed1 Sample.trimmed2
       Sample.trimmed1Unpaired Sample.trimmed2Unpaired Sample.trimlog
       Sample.mapped Sample.alnRates Sample.alnMetrics Sample.filtered
       Sample.dupsMetrics Sample.filteredshifted Sample.bigwig
       Sample.trackURL Sample.trackColour Sample.insertplot
       Sample.insertdata Sample.coverage Sample.qc Sample.qcPlot
       Sample.peaks Sample.frip];
  rewrite ?Hraw.

Ltac open_plan :=
  rewrite ?requests_plan, ?sample_after_merged, ?driver_raised_plan;
  unfold plan, downstream_plan, plan_raised;
  rewrite ?lookups_merged.

Create Rewrite HintDb phases.
#[local] Hint Rewrite
  steps_app disposals_app downstream_bams_app raw_inputs_app aligned_app
  steps_merge_plan steps_upstream_plan steps_trim_plan steps_align_plan
  steps_track_plan steps_peaks_plan
  disposals_merge_plan disposals_upstream_plan disposals_trim_plan
  disposals_align_plan disposals_track_plan disposals_peaks_plan
  downstream_bams_merge_plan downstream_bams_upstream_plan
  downstream_bams_trim_plan downstream_bams_align_plan
  downstream_bams_track_plan downstream_bams_peaks_plan
  raw_inputs_merge_plan raw_inputs_upstream_plan raw_inputs_trim_plan
  raw_inputs_align_plan raw_inputs_track_plan raw_inputs_peaks_plan
  aligned_merge_plan aligned_upstream_plan aligned_trim_plan
  aligned_align_plan aligned_track_plan aligned_peaks_plan
  : phases.

Ltac not_in_list :=
  let H := fresh in
  intros H; repeat (apply elem_of_cons in H as [H|H]; [discriminate|]);
  by apply elem_of_nil in H.

(** C1 (the code departs from the claim).  For a sample whose tagmented
    flag is false, in a project that knows its genome, the five steps
    downstream of the quality filter (signal track, genome-wide coverage,
    signal/noise assessment, peak calling, reads in peaks) are all given
    [sample.filteredshifted] as their input BAM, not [sample.filtered],
    although no shift step is issued that would write that file. *)
Theorem C1_untagmented_reads_filteredshifted
    (args : Args.t) (prj : Project.t) (sample : Sample.t) :
  Sample.tagmented sample = false →
  resolves prj sample →
  let fs := Sample.filteredshifted sample in
  downstream_bams (requests args prj sample) =
    [ (SignalTrack, fs); (Coverage, fs); (SignalNoise, fs);
      (PeakCalling, fs); (ReadsInPeaks, fs) ] ∧
  Shift ∉ steps (requests args prj sample).
Proof.
  intros Htag (g & c & w & Hlook) fs. subst fs. open_plan. rewrite Hlook.
  autorewrite with phases.
  split_raw sample; rewrite Htag.
  all: split; [reflexivity|].
  all: destruct (String.eqb _ _); [|destruct (String.eqb _ _)];
    cbn [app]; not_in_list.
Qed.

(** A single-file, paired, untagmented sample: all five steps read the
    shifted BAM and no shift step is issued. *)
Lemma C1_untagmented_witness :
  let sample := Ex.sample true false Ex.single in
  let rs := requests (Ex.args "trimmomatic") Ex.prj sample in
  let fs := Sample.filteredshifted sample in
  downstream_bams rs =
    [ (SignalTrack, fs); (Coverage, fs); (SignalNoise, fs);
      (PeakCalling, fs); (ReadsInPeaks, fs) ] ∧
  Shift ∉ steps rs.
Proof.
  apply (C1_untagmented_reads_filteredshifted
           (Ex.args "trimmomatic") Ex.prj (Ex.sample true false Ex.single)).
  - reflexivity.
  - do 3 eexists. vm_compute. reflexivity.
Defined.

(** C7.  When [sample.unmappedBam] is a list, the script opens with the
    merge step (its timestamp, then the merge command on that list with
    [sample.unmapped] as output and target) and has no other merge step;
    afterwards [sample.unmappedBam] is [sample.unmapped], and that is the
    input of the quality report and of the format conversion.  When it is
    a single path there is no merge step, the descriptor is untouched and
    both steps read that path. *)
Theorem C7_merge_comes_first
    (args : Args.t) (prj : Project.t) (sample : Sample.t) :
  let rs := requests args prj sample in
  let merged_bam := BamPath (Sample.unmapped sample) in
  match Sample.unmappedBam sample with
  | BamList inputBams =>
      (∃ rest,
         rs = (Timestamp "Merging bam files from replicates"
               :: CallLock (tk.mergeBams inputBams (Sample.unmapped sample))
                    (Some (Sample.unmapped sample)) None true false
               :: rest) ∧
         Merge ∉ steps rest) ∧
      Sample.unmappedBam (sample_after args prj sample) = merged_bam ∧
      raw_inputs rs =
        [ (QualityReport, merged_bam); (FormatConversion, merged_bam) ]
  | BamPath p =>
      (Merge ∉ steps rs) ∧
      sample_after args prj sample = sample ∧
      raw_inputs rs =
        [ (QualityReport, BamPath p); (FormatConversion, BamPath p) ]
  end.
Proof.
  intros rs merged_bam. subst rs merged_bam.
  rewrite requests_plan, sample_after_merged. unfold plan.
  assert (Hd : Merge ∉ steps (trim_plan args prj (merged sample)) ++
                        steps (downstream_plan args prj (merged sample))).
  { unfold downstream_plan.
    destruct (lookups prj _) as [[[g|] [c|]] [w|]]; autorewrite with phases.
    all: destruct (String.eqb _ _); [|destruct (String.eqb _ _)].
    all: try destruct (Sample.tagmented (merged sample)); simpl; not_in_list. }
  assert (Hr : raw_inputs (downstream_plan args prj (merged sample)) = []).
  { unfold downstream_plan.
    destruct (lookups prj _) as [[[g|] [c|]] [w|]]; by autorewrite with phases. }
  revert Hd Hr. generalize (downstream_plan args prj (merged sample)) as down.
  intros down Hd Hr. autorewrite with phases in *. rewrite Hr. clear Hr.
  revert Hd. unfold merge_plan. split_raw sample; intros Hd.
  - split_and!; [|reflexivity|reflexivity].
    cbn [app steps omap step_of].
    intros [?|[?|?]%elem_of_cons]%elem_of_cons; try discriminate. by apply Hd.
  - split_and!; [|reflexivity|reflexivity].
    eexists. split; [reflexivity|]. autorewrite with phases.
    cbn [app steps omap step_of].
    intros [?|[?|?]%elem_of_cons]%elem_of_cons; try discriminate. by apply Hd.
Qed.

(** ** The timestamps that delimit the trim step *)

Lemma before_mark_app msg a b :
  Forall (λ r, r ≠ Timestamp msg) a →
  before_mark msg (a ++ b) = a ++ before_mark msg b.
Proof.
  induction 1 as [|r a Hr _ IH]; [reflexivity|].
  cbn [app before_mark]. rewrite IH.
  destruct r as [m| | | |]; try reflexivity.
  destruct (String.eqb_spec m msg) as [->|]; [by destruct Hr|reflexivity].
Qed.

Lemma from_mark_app msg a b :
  Forall (λ r, r ≠ Timestamp msg) a →
  from_mark msg (a ++ b) = from_mark msg b.
Proof.
  induction 1 as [|r a Hr _ IH]; [reflexivity|].
  cbn [app from_mark]. rewrite IH.
  destruct r as [m| | | |]; try reflexivity.
  destruct (String.eqb_spec m msg) as [->|]; [by destruct Hr|reflexivity].
Qed.

Lemma before_mark_here msg rest : before_mark msg (Timestamp msg :: rest) = [].
Proof. cbn [before_mark]. by rewrite String.eqb_refl. Qed.

Lemma from_mark_here msg rest :
  from_mark msg (Timestamp msg :: rest) = Timestamp msg :: rest.
Proof. cbn [from_mark]. by rewrite String.eqb_refl. Qed.

Ltac no_mark :=
  intros;
  unfold merge_plan, upstream_plan, trim_plan, TRIM, ALIGN;
  repeat match goal with
         | |- context [Sample.unmappedBam ?s] => destruct (Sample.unmappedBam s)
         | |- context [Sample.paired ?s] => destruct (Sample.paired s)
         | |- context [String.eqb ?a ?b] => destruct (String.eqb a b)
         end;
  cbn [app negb]; repeat constructor; discriminate.

Lemma merge_plan_no_mark msg sample :
  msg = TRIM ∨ msg = ALIGN →
  Forall (λ r, r ≠ Timestamp msg) (merge_plan sample).
Proof. intros [->| ->]; no_mark. Qed.

Lemma upstream_plan_no_mark msg s :
  msg = TRIM ∨ msg = ALIGN →
  Forall (λ r, r ≠ Timestamp msg) (upstream_plan s).
Proof. intros [->| ->]; no_mark. Qed.

Lemma trim_plan_no_mark args prj s :
  Forall (λ r, r ≠ Timestamp ALIGN) (trim_plan args prj s).
Proof. no_mark. Qed.

(** Where the two timestamps cut the script. *)
Lemma plan_marks (args : Args.t) (prj : Project.t) (sample : Sample.t) :
  let rs := plan args prj sample in
  before_mark TRIM rs = merge_plan sample ++ upstream_plan (merged sample) ∧
  trim_step rs = trim_plan args prj (merged sample) ∧
  from_mark ALIGN rs = Timestamp ALIGN :: downstream_plan args prj (merged sample).
Proof.
  cbv zeta. unfold trim_step, plan.
  pose proof (merge_plan_no_mark TRIM sample (or_introl eq_refl)) as Hm1.
  pose proof (merge_plan_no_mark ALIGN sample (or_intror eq_refl)) as Hm2.
  pose proof (upstream_plan_no_mark TRIM (merged sample) (or_introl eq_refl)) as Hu1.
  pose proof (upstream_plan_no_mark ALIGN (merged sample) (or_intror eq_refl)) as Hu2.
  pose proof (trim_plan_no_mark args prj (merged sample)) as Ht.
  assert (Hmark : Forall (λ r, r ≠ Timestamp ALIGN) [Timestamp TRIM])
    by (repeat constructor; discriminate).
  split_and!.
  - rewrite !before_mark_app by assumption.
    cbn [app]. by rewrite before_mark_here, app_nil_r.
  - rewrite !from_mark_app by assumption.
    cbn [app]. rewrite from_mark_here. cbn [tail].
    rewrite before_mark_app by assumption.
    cbn [app]. by rewrite before_mark_here, app_nil_r.
  - rewrite !from_mark_app by assumption.
    cbn [app]. by rewrite from_mark_here.
Qed.

Lemma trim_plan_with_trimmomatic args prj s :
  let a := Args.with_trimmer "trimmomatic" args in
  steps (trim_plan a prj s) = [Trim] ∧
  Forall (λ r, match r with
               | CallLock c _ _ _ _ => step_of_cmd c = Trim
               | CleanAdd _ _ => True
               | _ => False
               end) (trim_plan a prj s).
Proof.
  unfold trim_plan. cbn [Args.with_trimmer Args.trimmer String.eqb].
  change (String.eqb "trimmomatic" "trimmomatic") with true. cbv iota.
  destruct (Sample.paired s); cbn [negb]; split; by repeat constructor.
Qed.

Lemma trim_plan_with_skewer args prj s :
  let a := Args.with_trimmer "skewer" args in
  steps (trim_plan a prj s) = [Trim] ∧
  Forall (λ r, match r with
               | CallLock c _ _ _ _ => step_of_cmd c = Trim
               | CleanAdd _ _ => True
               | _ => False
               end) (trim_plan a prj s).
Proof.
  unfold trim_plan. cbn [Args.with_trimmer Args.trimmer].
  change (String.eqb "skewer" "trimmomatic") with false.
  change (String.eqb "skewer" "skewer") with true. cbv iota.
  destruct (Sample.paired s); cbn [negb]; split; by repeat constructor.
Qed.

Lemma aligned_downstream_plan args prj s :
  aligned (downstream_plan args prj s) =
    match (lookups prj s).1.1 with
    | Some _ => [trimmed_reads s]
    | None => []
    end.
Proof.
  unfold downstream_plan.
  destruct (lookups prj s) as [[[g|] [c|]] [w|]]; by autorewrite with phases.
Qed.

Lemma plan_split (args : Args.t) (prj : Project.t) (sample : Sample.t) :
  let rs := plan args prj sample in
  rs = before_mark TRIM rs ++ [Timestamp TRIM] ++ trim_step rs ++
       from_mark ALIGN rs.
Proof.
  cbv zeta. destruct (plan_marks args prj sample) as (-> & -> & ->).
  unfold plan. by rewrite <- !app_assoc.
Qed.

(** C6.  With trimmer trimmomatic and with trimmer skewer the driver
    issues the same requests before the trim timestamp and the same
    requests from the alignment timestamp on, and between the two there is
    nothing but the trim step: one trimming command and its disposal
    registrations.  The alignment, when the genome is known, reads
    [trimmed1] and [trimmed2] for a paired sample and [trimmed] otherwise,
    whichever trimmer is chosen; the descriptor the driver leaves and the
    exception it may raise are the same too. *)
Theorem C6_trimmer_changes_only_the_trim_step
    (args : Args.t) (prj : Project.t) (sample : Sample.t) :
  let a1 := Args.with_trimmer "trimmomatic" args in
  let a2 := Args.with_trimmer "skewer" args in
  let rs1 := requests a1 prj sample in
  let rs2 := requests a2 prj sample in
  let trim_only (r : Request) :=
    match r with
    | CallLock c _ _ _ _ => step_of_cmd c = Trim
    | CleanAdd _ _ => True
    | _ => False
    end in
  before_mark TRIM rs1 = before_mark TRIM rs2 ∧
  from_mark ALIGN rs1 = from_mark ALIGN rs2 ∧
  rs1 = before_mark TRIM rs1 ++ [Timestamp TRIM] ++ trim_step rs1 ++
        from_mark ALIGN rs1 ∧
  rs2 = before_mark TRIM rs2 ++ [Timestamp TRIM] ++ trim_step rs2 ++
        from_mark ALIGN rs2 ∧
  steps (trim_step rs1) = [Trim] ∧ Forall trim_only (trim_step rs1) ∧
  steps (trim_step rs2) = [Trim] ∧ Forall trim_only (trim_step rs2) ∧
  aligned rs1 = aligned rs2 ∧
  aligned rs1 =
    match (lookups prj sample).1.1 with
    | Some _ => [trimmed_reads sample]
    | None => []
    end ∧
  sample_after a1 prj sample = sample_after a2 prj sample ∧
  driver_raised a1 prj sample = driver_raised a2 prj sample.
Proof.
  intros a1 a2 rs1 rs2 trim_only. subst rs1 rs2.
  rewrite !requests_plan, !sample_after_merged, !driver_raised_plan.
  pose proof (plan_split a1 prj sample) as Hs1.
  pose proof (plan_split a2 prj sample) as Hs2.
  destruct (plan_marks a1 prj sample) as (Hb1 & Ht1 & Hf1).
  destruct (plan_marks a2 prj sample) as (Hb2 & Ht2 & Hf2).
  destruct (trim_plan_with_trimmomatic args prj (merged sample)) as [Hst1 Hall1].
  destruct (trim_plan_with_skewer args prj (merged sample)) as [Hst2 Hall2].
  assert (Hdown : downstream_plan a1 prj (merged sample) =
                  downstream_plan a2 prj (merged sample)) by reflexivity.
  assert (Hal : ∀ a, aligned (plan a prj sample) =
                     match (lookups prj sample).1.1 with
                     | Some _ => [trimmed_reads sample]
                     | None => []
                     end).
  { intros a. unfold plan. autorewrite with phases.
    rewrite aligned_downstream_plan, lookups_merged.
    unfold trimmed_reads. split_raw sample; reflexivity. }
  split_and!; try done.
  - by rewrite Hb1, Hb2.
  - by rewrite Hf1, Hf2, Hdown.
  - by rewrite Ht1.
  - by rewrite Ht1.
  - by rewrite Ht2.
  - by rewrite Ht2.
  - by rewrite !Hal.
Qed.

Lemma steps_downstream_plan_no (st : Step) args prj s :
  st ∈ [Merge; QualityReport; FormatConversion; Trim] →
  st ∉ steps (downstream_plan args prj s).
Proof.
  intros Hst. unfold downstream_plan.
  destruct (lookups prj s) as [[[g|] [c|]] [w|]]; autorewrite with phases.
  all: try destruct (Sample.tagmented s); cbn [app].
  all: repeat (apply elem_of_cons in Hst as [->|Hst]; [not_in_list|]).
  all: by apply elem_of_nil in Hst.
Qed.

Lemma disposals_downstream_plan args prj s :
  disposals (downstream_plan args prj s) =
    match (lookups prj s).1.1 with
    | Some _ => [(Sample.mapped s, true)]
    | None => []
    end.
Proof.
  unfold downstream_plan.
  destruct (lookups prj s) as [[[g|] [c|]] [w|]]; by autorewrite with phases.
Qed.

(** C10.  With a trimmer other than trimmomatic and skewer nothing is
    issued between the trim timestamp and the alignment timestamp: no
    trimming command anywhere in the script and no trimmed artifact among
    the disposal registrations (only the fastq files and, once the genome
    is known, the mapped BAM).  The only steps before the alignment are
    merge, quality report and format conversion, and the alignment still
    reads the trimmed paths of the descriptor. *)
Theorem C10_unknown_trimmer_skips_trimming
    (args : Args.t) (prj : Project.t) (sample : Sample.t) :
  Args.trimmer args ≠ "trimmomatic" →
  Args.trimmer args ≠ "skewer" →
  let rs := requests args prj sample in
  trim_step rs = [] ∧
  (Trim ∉ steps rs) ∧
  rs = before_mark TRIM rs ++ [Timestamp TRIM] ++ from_mark ALIGN rs ∧
  steps (before_mark ALIGN rs) =
    match Sample.unmappedBam sample with
    | BamList _ => [Merge; QualityReport; FormatConversion]
    | BamPath _ => [QualityReport; FormatConversion]
    end ∧
  disposals rs =
    (if Sample.paired sample
     then [ (Sample.fastq1 sample, true); (Sample.fastq2 sample, true);
            (Sample.fastqUnpaired sample, true) ]
     else [ (Sample.fastq sample, true) ]) ++
    match (lookups prj sample).1.1 with
    | Some _ => [ (Sample.mapped sample, true) ]
    | None => []
    end ∧
  aligned rs =
    match (lookups prj sample).1.1 with
    | Some _ => [trimmed_reads sample]
    | None => []
    end.
Proof.
  intros Ht1%String.eqb_neq Ht2%String.eqb_neq rs. subst rs.
  rewrite requests_plan.
  pose proof (plan_split args prj sample) as Hsplit.
  destruct (plan_marks args prj sample) as (Hb & Ht & Hf).
  assert (Htrim : trim_plan args prj (merged sample) = []).
  { unfold trim_plan. by rewrite Ht1, Ht2. }
  cbv zeta in Hsplit. rewrite Ht, Htrim in *.
  assert (Hba : before_mark ALIGN (plan args prj sample) =
                merge_plan sample ++ upstream_plan (merged sample) ++
                [Timestamp TRIM]).
  { unfold plan. rewrite Htrim.
    pose proof (merge_plan_no_mark ALIGN sample (or_intror eq_refl)).
    pose proof (upstream_plan_no_mark ALIGN (merged sample) (or_intror eq_refl)).
    rewrite !before_mark_app
      by first [assumption | repeat constructor; discriminate].
    cbn [app]. by rewrite before_mark_here. }
  split_and!.
  - reflexivity.
  - unfold plan. rewrite Htrim. autorewrite with phases.
    pose proof (steps_downstream_plan_no Trim args prj (merged sample)) as Hd.
    destruct (Sample.unmappedBam sample); cbn [app steps omap step_of].
    all: intros H; repeat (apply elem_of_cons in H as [H|H]; [discriminate|]).
    all: revert H; apply Hd; set_solver.
  - exact Hsplit.
  - rewrite Hba. autorewrite with phases.
    by destruct (Sample.unmappedBam sample).
  - unfold plan. rewrite Htrim. autorewrite with phases.
    rewrite disposals_downstream_plan, lookups_merged.
    split_raw sample; reflexivity.
  - unfold plan. rewrite Htrim. autorewrite with phases.
    rewrite aligned_downstream_plan, lookups_merged.
    unfold trimmed_reads. split_raw sample; reflexivity.
Qed.

(** Trimmer cutadapt on a paired sample. *)
Lemma C10_unknown_trimmer_witness :
  let sample := Ex.sample true true Ex.single in
  let rs := requests (Ex.args "cutadapt") Ex.prj sample in
  trim_step rs = [] ∧
  (Trim ∉ steps rs) ∧
  aligned rs = [ (Sample.trimmed1 sample, Some (Sample.trimmed2 sample)) ].
Proof.
  pose proof (C10_unknown_trimmer_skips_trimming
                (Ex.args "cutadapt") Ex.prj (Ex.sample true true Ex.single))
    as H.
  destruct H as (H1 & H2 & _ & _ & _ & H3); [discriminate|discriminate|].
  split_and!; [exact H1|exact H2|exact H3].
Defined.

(** C8 (as amended).  The driver leaves the paired and tagmented flags and
    the genome identifier as they were; the only field it ever assigns is
    [unmappedBam], which for a list of raw inputs becomes the merge output
    [sample.unmapped], a path the descriptor already held.  So no path is
    added to the descriptor, and every other field is unchanged. *)
Theorem C8_descriptor_frame
    (args : Args.t) (prj : Project.t) (sample : Sample.t) :
  let s' := sample_after args prj sample in
  Sample.paired s' = Sample.paired sample ∧
  Sample.tagmented s' = Sample.tagmented sample ∧
  Sample.genome s' = Sample.genome sample ∧
  s' = match Sample.unmappedBam sample with
       | BamList _ =>
           Sample.set_unmappedBam (BamPath (Sample.unmapped sample)) sample
       | BamPath _ => sample
       end ∧
  (∀ p, p ∈ Sample.known_paths s' → p ∈ Sample.known_paths sample).
Proof.
  cbv zeta. rewrite sample_after_merged. unfold Sample.known_paths.
  split_raw sample; split_and!; try reflexivity; [done|].
  cbn [Sample.raw_paths]. intros p. rewrite !elem_of_app.
  intros [Hp|Hp]; [|by right].
  apply list_elem_of_singleton in Hp as ->. right. set_solver.
Qed.

(** With two replicate files, the first raw path is known to the
    descriptor before the run and not after it. *)
Lemma C8_counterexample :
  let sample := Ex.sample true true Ex.replicates in
  ¬ (∀ p, p ∈ Sample.known_paths sample →
          p ∈ Sample.known_paths
                (sample_after (Ex.args "trimmomatic") Ex.prj sample)).
Proof.
  intros sample H. specialize (H "/raw/s1_L1.bam").
  revert H. vm_compute. intros H.
  specialize (H (list_elem_of_here _ _)).
  revert H. not_in_list.
Qed.

(** ** Whole runs *)

Lemma run_process_log env args prj sample w :
  log (run_process env args prj sample w) =
    log (run env (requests args prj sample) w).
Proof. unfold run_process. by destruct (ending (run _ _ _)). Qed.

Lemma run_process_final env args prj sample w :
  final (run_process env args prj sample w) =
    final (run env (requests args prj sample) w).
Proof. unfold run_process. by destruct (ending (run _ _ _)). Qed.

Lemma run_process_ending env args prj sample w :
  ending (run_process env args prj sample w) =
    match ending (run env (requests args prj sample) w) with
    | Some e => Some e
    | None => driver_raised args prj sample
    end.
Proof. unfold run_process. by destruct (ending (run _ _ _)) eqn:H. Qed.

(** A run that ends without an exception went through the whole script,
    and every genome-keyed lookup succeeded. *)
Lemma run_process_finished env args prj sample w :
  let t := run_process env args prj sample w in
  ending t = None →
  (log t).*1 = requests args prj sample ∧
  resolves prj sample ∧
  registry (final t) = registry w ++ disposals (requests args prj sample).
Proof.
  cbv zeta. rewrite run_process_ending, run_process_log, run_process_final.
  destruct (ending (run _ _ _)) eqn:Hend; [discriminate|].
  rewrite driver_raised_plan. intros Hraised%not_raised_resolves.
  rewrite run_registry, (run_finished _ _ _ Hend).
  split_and!; [reflexivity| |reflexivity].
  unfold resolves in *. by rewrite <- lookups_merged.
Qed.

(** C3 (as amended).  For a paired-end, tagmented sample with a list of raw
    inputs and trimmer trimmomatic, a run that starts from an empty
    registry and ends without an exception has registered exactly eight
    artifacts for conditional disposal: the three fastq files, the four
    trimmed files and the mapped BAM. *)
Theorem C3_eight_disposals (env : Env) (args : Args.t) (prj : Project.t)
    (sample : Sample.t) (existing : gset string) (inputBams : list string) :
  Sample.unmappedBam sample = BamList inputBams →
  Sample.paired sample = true →
  Sample.tagmented sample = true →
  Args.trimmer args = "trimmomatic" →
  let t := run_process env args prj sample (mkWorld existing []) in
  ending t = None →
  registry (final t) =
    [ (Sample.fastq1 sample, true); (Sample.fastq2 sample, true);
      (Sample.fastqUnpaired sample, true);
      (Sample.trimmed1 sample, true); (Sample.trimmed1Unpaired sample, true);
      (Sample.trimmed2 sample, true); (Sample.trimmed2Unpaired sample, true);
      (Sample.mapped sample, true) ] ∧
  length (registry (final t)) = 8%nat.
Proof.
  intros Hraw Hpaired Htag Htrim t Hend. subst t.
  apply run_process_finished in Hend as (_ & (g & c & w & Hlook) & ->).
  cbn [registry app]. rewrite requests_plan. unfold plan.
  autorewrite with phases.
  rewrite disposals_downstream_plan, lookups_merged, Hlook, Htrim.
  change (String.eqb "trimmomatic" "trimmomatic") with true. cbv iota.
  unfold merged. rewrite Hraw.
  cbn [Sample.set_unmappedBam Sample.paired Sample.fastq1 Sample.fastq2
       Sample.fastqUnpaired Sample.trimmed1 Sample.trimmed2
       Sample.trimmed1Unpaired Sample.trimmed2Unpaired Sample.mapped].
  rewrite Hpaired. split; reflexivity.
Qed.

(** A run in which every tool succeeds. *)
Lemma C3_eight_disposals_witness :
  length (registry (final
    (run_process Ex.all_ok (Ex.args "trimmomatic") Ex.prj
       (Ex.sample true true Ex.replicates) Ex.empty))) = 8%nat.
Proof.
  apply (C3_eight_disposals Ex.all_ok (Ex.args "trimmomatic") Ex.prj
           (Ex.sample true true Ex.replicates) ∅
           ["/raw/s1_L1.bam"; "/raw/s1_L2.bam"]);
    vm_compute; reflexivity.
Defined.

(** The same run does not register nine artifacts. *)
Lemma C3_counterexample :
  let t := run_process Ex.all_ok (Ex.args "trimmomatic") Ex.prj
             (Ex.sample true true Ex.replicates) Ex.empty in
  ¬ (ending t = None → length (registry (final t)) = 9%nat).
Proof.
  intros t H. assert (Hend : ending t = None) by (vm_compute; reflexivity).
  specialize (H Hend). clear Hend. vm_compute in H. discriminate H.
Qed.

(** C5 (as amended).  With trimmer trimmomatic or skewer, a run that ends
    without an exception goes through these steps in this order: merge
    (only for a list of raw inputs), quality report, format conversion,
    trim, align, quality filter, shift (only if tagmented), index (twice,
    three times if tagmented), signal track, hub registration, hub
    linking, fragment-size diagnostic, genome-wide coverage, signal/noise
    assessment, peak calling, reads in peaks.  Leaving out hub
    registration, hub linking, coverage and signal/noise, and counting the
    index step once, gives the order merge, quality report, format
    conversion, trim, align, quality filter, shift, index, signal track,
    fragment-size diagnostic, peak calling, reads in peaks. *)
Theorem C5_step_order (env : Env) (args : Args.t) (prj : Project.t)
    (sample : Sample.t) (w : World) :
  Args.trimmer args = "trimmomatic" ∨ Args.trimmer args = "skewer" →
  let t := run_process env args prj sample w in
  ending t = None →
  let multi :=
    match Sample.unmappedBam sample with
    | BamList _ => true
    | BamPath _ => false
    end in
  let tagmented := Sample.tagmented sample in
  let interleaved := [HubRegistration; HubLink; Coverage; SignalNoise] in
  steps (log t).*1 =
    (if multi then [Merge] else []) ++
    [QualityReport; FormatConversion; Trim; Align; QualityFilter] ++
    (if tagmented then [Shift] else []) ++
    [Index; Index] ++ (if tagmented then [Index] else []) ++
    [SignalTrack; HubRegistration; HubLink; FragmentSize;
     Coverage; SignalNoise; PeakCalling; ReadsInPeaks] ∧
  filter (λ s, s ∉ interleaved) (collapse (steps (log t).*1)) =
    (if multi then [Merge] else []) ++
    [QualityReport; FormatConversion; Trim; Align; QualityFilter] ++
    (if tagmented then [Shift] else []) ++
    [Index; SignalTrack; FragmentSize; PeakCalling; ReadsInPeaks].
Proof.
  intros Htrim t Hend multi tagmented interleaved.
  subst t multi tagmented interleaved.
  apply run_process_finished in Hend as (-> & (g & c & w' & Hlook) & _).
  rewrite requests_plan. unfold plan, downstream_plan.
  rewrite lookups_merged, Hlook. autorewrite with phases.
  assert (Ht : (if String.eqb (Args.trimmer args) "trimmomatic" then [Trim]
                else if String.eqb (Args.trimmer args) "skewer" then [Trim]
                else []) = [Trim]).
  { destruct Htrim as [-> | ->]; reflexivity. }
  rewrite Ht. split_raw sample.
  all: destruct (Sample.tagmented sample); split; reflexivity.
Qed.

(** Replicates, paired, tagmented, every tool succeeding. *)
Lemma C5_step_order_witness :
  steps (log (run_process Ex.all_ok (Ex.args "trimmomatic") Ex.prj
                (Ex.sample true true Ex.replicates) Ex.empty)).*1 =
    [ Merge; QualityReport; FormatConversion; Trim; Align; QualityFilter;
      Shift; Index; Index; Index; SignalTrack; HubRegistration; HubLink;
      FragmentSize; Coverage; SignalNoise; PeakCalling; ReadsInPeaks ].
Proof.
  apply (C5_step_order Ex.all_ok (Ex.args "trimmomatic") Ex.prj
           (Ex.sample true true Ex.replicates) Ex.empty).
  - left. reflexivity.
  - vm_compute. reflexivity.
Defined.

(** In that run other steps come between the twelve of the claim. *)
Lemma C5_counterexample :
  let t := run_process Ex.all_ok (Ex.args "trimmomatic") Ex.prj
             (Ex.sample true true Ex.replicates) Ex.empty in
  ¬ (ending t = None →
     collapse (steps (log t).*1) =
       [ Merge; QualityReport; FormatConversion; Trim; Align; QualityFilter;
         Shift; Index; SignalTrack; FragmentSize; PeakCalling;
         ReadsInPeaks ]).
Proof.
  intros t H. assert (Hend : ending t = None) by (vm_compute; reflexivity).
  specialize (H Hend). clear Hend. vm_compute in H. discriminate H.
Qed.

(** ** What a logged result says about the request *)

Lemma run_log_result env rs w i r res :
  log (run env rs w) !! i = Some (r, res) →
  ∃ w', res = (execute env r w').1.
Proof.
  revert w i. induction rs as [|r0 rest IH]; intros w i; [done|].
  rewrite run_cons. destruct (raised_by _); cbn [log].
  - destruct i; [|done]. intros [= <- <-]. eauto.
  - destruct i as [|i]; [intros [= <- <-]; eauto|]. apply IH.
Qed.

Lemma execute_call_lock_failed env c t ln sh nf w b :
  (execute env (CallLock c t ln sh nf) w).1 = Failed b → b = nf.
Proof.
  cbn [execute]. unfold call_lock, invoke.
  destruct t; [case_bool_decide|]; cbn [fst]; try discriminate.
  all: destruct (status _); cbn [result_of]; congruence.
Qed.

Lemma execute_invoked env r w :
  invoked (execute env r w).1 = true →
  match r with
  | CallLock _ (Some t) _ _ _ => t ∉ files w
  | CallLock _ None _ _ _ | Invoke _ => True
  | _ => False
  end.
Proof.
  destruct r as [|c [t|]| | |p]; cbn [execute]; try done.
  - unfold call_lock. by case_bool_decide.
  - unfold ensure_dir.
    by case_bool_decide; [|destruct (os_makedirs env p (files w))].
Qed.

Lemma run_ending_kind env rs w e :
  ending (run env rs w) = Some e →
  e = ToolFailure ∨ e = KeyboardInterrupt ∨ e = OSError.
Proof.
  revert w. induction rs as [|r rest IH]; intros w; [done|].
  rewrite run_cons. destruct (raised_by _) as [e'|] eqn:Hr; cbn [ending].
  - intros [= <-]. destruct (execute env r w).1 as [| | |[]| |]; naive_solver.
  - apply IH.
Qed.

(** A result that raises is the last entry of the log, and its exception
    ends the run. *)
Lemma run_raised_last env rs w i r res e :
  log (run env rs w) !! i = Some (r, res) →
  raised_by res = Some e →
  ending (run env rs w) = Some e ∧ length (log (run env rs w)) = S i.
Proof.
  revert w i. induction rs as [|r0 rest IH]; intros w i; [done|].
  rewrite run_cons. destruct (raised_by (execute env r0 w).1) eqn:Hr;
    cbn [log ending].
  - destruct i; [|done]. intros [= <- <-] Hres. split; [congruence|reflexivity].
  - destruct i as [|i].
    + intros [= <- <-] Hres. congruence.
    + intros Hi Hres. destruct (IH _ _ Hi Hres) as [-> Hlen].
      cbn [length]. by rewrite Hlen.
Qed.

(** A request is served on a filesystem that holds at least the files the
    run started with. *)
Lemma run_log_served env rs w i r res :
  log (run env rs w) !! i = Some (r, res) →
  ∃ w', files w ⊆ files w' ∧ res = (execute env r w').1.
Proof.
  revert w i. induction rs as [|r0 rest IH]; intros w i; [done|].
  rewrite run_cons. destruct (raised_by _); cbn [log].
  - destruct i; [|done]. intros [= <- <-]. eauto.
  - destruct i as [|i]; [intros [= <- <-]; eauto|].
    intros Hi. destruct (IH _ _ Hi) as (w' & Hsub & ->).
    exists w'. split; [|done]. etrans; [apply execute_files|exact Hsub].
Qed.

(** The merge phase leaves every field but [unmappedBam] as it was. *)
Lemma merged_field {A} (f : Sample.t → A) (sample : Sample.t) :
  (∀ v, f (Sample.set_unmappedBam v sample) = f sample) →
  f (merged sample) = f sample.
Proof.
  intros H. unfold merged. destruct (Sample.unmappedBam sample); [done|apply H].
Qed.

(** ** C2: a run over existing targets *)

Ltac passive_phase :=
  intros;
  unfold merge_plan, upstream_plan, trim_plan, align_plan;
  repeat match goal with
         | |- context [Sample.unmappedBam ?s] => destruct (Sample.unmappedBam s)
         | |- context [Sample.paired ?s] => destruct (Sample.paired s)
         | |- context [Sample.tagmented ?s] => destruct (Sample.tagmented s)
         | |- context [String.eqb ?a ?b] => destruct (String.eqb a b)
         end;
  cbn [app negb]; by repeat constructor.

Lemma passive_merge_plan s : Forall passive (merge_plan s).
Proof. passive_phase. Qed.
Lemma passive_upstream_plan s : Forall passive (upstream_plan s).
Proof. passive_phase. Qed.
Lemma passive_trim_plan args prj s : Forall passive (trim_plan args prj s).
Proof. passive_phase. Qed.
Lemma passive_align_plan args s g : Forall passive (align_plan args s g).
Proof. passive_phase. Qed.

(** Requests that only log, register or find their target in place are
    served without an invocation and without touching the files. *)
Lemma run_passive_prefix env pre rest w :
  Forall passive pre →
  Forall (λ t, t ∈ files w) (targets pre) →
  ∃ w' l, files w' = files w ∧
          log (run env (pre ++ rest) w) = l ++ log (run env rest w').
Proof.
  revert w. induction pre as [|r pre IH]; intros w Hp Ht.
  { exists w, []. done. }
  inversion Hp as [|? ? Hr Hpre]; subst.
  assert (Hstep : raised_by (execute env r w).1 = None ∧
                  files (execute env r w).2 = files w ∧
                  Forall (λ t, t ∈ files w) (targets pre)).
  { destruct r as [|c [t|]| | |]; try done; cbn [execute fst snd].
    - unfold call_lock. inversion Ht; subst.
      by rewrite bool_decide_eq_true_2. }
  destruct Hstep as (Hnone & Hfiles & Hrest).
  cbn [app]. rewrite run_cons, Hnone. cbn [log].
  destruct (IH (execute env r w).2 Hpre) as (w' & l & Hw' & Hlog).
  { by rewrite Hfiles. }
  exists w', ((r, (execute env r w).1) :: l). rewrite Hlog.
  split; [congruence|done].
Qed.

Ltac untargeted_phase :=
  intros;
  unfold merge_plan, upstream_plan, trim_plan, align_plan, track_plan,
    peaks_plan;
  repeat match goal with
         | |- context [Sample.unmappedBam ?s] => destruct (Sample.unmappedBam s)
         | |- context [Sample.paired ?s] => destruct (Sample.paired s)
         | |- context [Sample.tagmented ?s] => destruct (Sample.tagmented s)
         | |- context [String.eqb ?a ?b] => destruct (String.eqb a b)
         end;
  cbn [app negb]; by repeat constructor.

(** The hub registration is the only command handed to the executor
    without a target. *)
Lemma plan_untargeted (args : Args.t) (prj : Project.t) (sample : Sample.t) :
  Forall (λ r, match r with
               | CallLock c None _ _ _ => step_of_cmd c = HubRegistration
               | _ => True
               end) (plan args prj sample).
Proof.
  unfold plan, downstream_plan.
  destruct (lookups prj _) as [[[g|] [c|]] [w|]].
  all: rewrite ?Forall_app; split_and!; try untargeted_phase.
Qed.

(** C2 (as amended).  When every target the script declares is already on
    the filesystem, every step that declares a target is skipped.  The
    only requests that can still end in an invocation are the track-hub
    registration, which is handed to the executor without a target, and
    the track-hub linking and the insert-size plot, which the driver calls
    directly; and when the project knows the genome, the hub registration
    is invoked again on every such run. *)
Theorem C2_existing_targets_are_skipped (env : Env) (args : Args.t)
    (prj : Project.t) (sample : Sample.t) (w : World) :
  Forall (λ t, t ∈ files w) (targets (requests args prj sample)) →
  let t := run_process env args prj sample w in
  Forall (λ e, ∀ tg, target_of e.1 = Some tg → e.2 = Skipped) (log t) ∧
  Forall (λ r, step_of r = Some HubRegistration ∨ step_of r = Some HubLink ∨
               step_of r = Some FragmentSize) (invocations (log t)) ∧
  (resolves prj sample →
   ∃ r res, (r, res) ∈ log t ∧ step_of r = Some HubRegistration ∧
            invoked res = true).
Proof.
  intros Htargets t. subst t. rewrite run_process_log.
  assert (Hskip : Forall (λ e, ∀ tg, target_of e.1 = Some tg → e.2 = Skipped)
                    (log (run env (requests args prj sample) w))).
  { apply run_targets_exist. apply Forall_forall.
    intros r Hr tg Htg. apply (proj1 (Forall_forall _ _) Htargets tg).
    unfold targets.
    apply list_elem_of_omap. eauto. }
  split_and!; [exact Hskip| |].
  - rewrite Forall_forall. intros r Hr. unfold invocations in Hr.
    apply list_elem_of_fmap in Hr as ([r' res] & -> & Hin).
    apply list_elem_of_filter in Hin as [Hinv Hin]. cbn [fst snd] in *.
    pose proof (proj1 (Forall_forall _ _) Hskip _ Hin) as Hsk.
    cbn [fst snd] in Hsk.
    apply list_elem_of_lookup in Hin as [i Hi].
    pose proof (run_log_lookup _ _ _ _ _ _ Hi) as Hreq.
    destruct (run_log_result _ _ _ _ _ _ Hi) as [w' ->].
    apply execute_invoked in Hinv.
    pose proof (plan_untargeted args prj sample) as Hplan.
    rewrite <- requests_plan in Hplan.
    pose proof (proj1 (Forall_forall _ _) Hplan r'
                  (list_elem_of_lookup_2 _ _ _ Hreq)) as Hr'.
    cbv beta in Hr'. clear Hplan.
    destruct r' as [|c [tg|]| |[]|]; try done; cbn [step_of]; eauto.
    + specialize (Hsk tg eq_refl). revert Hsk. cbn [execute]. unfold call_lock.
      case_bool_decide; [done|]. unfold invoke. cbn [fst].
      by destruct (status _).
    + left. by f_equal.
  - intros (g & c & gw & Hlook).
    rewrite requests_plan in Htargets |- *.
    set (s := merged sample) in *.
    set (hub := CallLock
                  (tk.addTrackToHub (Sample.name s) (Sample.trackURL s)
                     (path_join (Project.html (Project.dirs prj))
                        ("trackHub_" +:+ Sample.genome s +:+ ".txt"))
                     (Sample.trackColour s))
                  None (Some (Sample.name s +:+ "addToTrackHub")) true false).
    assert (∃ pre post, plan args prj sample = pre ++ hub :: post ∧
                        Forall passive pre)
      as (pre & post & Hplan & Hpassive).
    { exists (merge_plan sample ++ upstream_plan s ++ [Timestamp TRIM] ++
              trim_plan args prj s ++ [Timestamp ALIGN] ++
              align_plan args s g ++
              [CallLock
                 (tk.bamToBigWig (Sample.filteredshifted s) (Sample.bigwig s)
                    c (Sample.genome s) false true)
                 (Some (Sample.bigwig s)) None true false]).
      eexists. split.
      - unfold plan, downstream_plan. fold s.
        subst s. rewrite lookups_merged, Hlook. unfold track_plan.
        rewrite <- !app_assoc. cbn [app]. reflexivity.
      - rewrite !Forall_app.
        split_and!; auto using passive_merge_plan, passive_upstream_plan,
          passive_trim_plan, passive_align_plan.
        all: by repeat constructor. }
    rewrite Hplan in Htargets |- *.
    rewrite targets_app in Htargets. apply Forall_app in Htargets as [Hpre _].
    destruct (run_passive_prefix env pre (hub :: post) w Hpassive Hpre)
      as (w' & l & _ & ->).
    exists hub, (execute env hub w').1. split_and!.
    + rewrite run_cons. apply elem_of_app. right.
      destruct (raised_by _); cbn [log]; apply list_elem_of_here.
    + reflexivity.
    + subst hub. cbn [execute]. unfold call_lock, invoke. cbn [fst].
      by destruct (status _).
Qed.

(** A filesystem that holds every target of the script. *)
Lemma C2_existing_targets_witness :
  let args := Ex.args "trimmomatic" in
  let sample := Ex.sample true true Ex.replicates in
  let w := Ex.done_world (requests args Ex.prj sample) in
  let t := run_process Ex.all_ok args Ex.prj sample w in
  Forall (λ e, ∀ tg, target_of e.1 = Some tg → e.2 = Skipped) (log t).
Proof.
  intros args sample w t.
  refine (proj1 (C2_existing_targets_are_skipped Ex.all_ok args Ex.prj
                   sample w _)).
  apply Forall_forall. intros tg Htg. unfold w, Ex.done_world. cbn [files].
  by apply elem_of_list_to_set.
Defined.

(** On that filesystem a run still invokes the hub registration, the hub
    linking and the insert-size plot. *)
Lemma C2_counterexample :
  let args := Ex.args "trimmomatic" in
  let sample := Ex.sample true true Ex.replicates in
  let w := Ex.done_world (requests args Ex.prj sample) in
  ¬ (Forall (λ t, t ∈ files w) (targets (requests args Ex.prj sample)) →
     invocations (log (run_process Ex.all_ok args Ex.prj sample w)) = []).
Proof.
  intros args sample w H.
  assert (Hw : Forall (λ t, t ∈ files w) (targets (requests args Ex.prj sample))).
  { apply Forall_forall. intros tg Htg. unfold w, Ex.done_world. cbn [files].
    by apply elem_of_list_to_set. }
  specialize (H Hw). clear Hw. vm_compute in H. discriminate H.
Qed.

(** ** C4: the step that is allowed to fail *)

Lemma steps_elem_of rs r st : r ∈ rs → step_of r = Some st → st ∈ steps rs.
Proof. intros Hr Hst. apply list_elem_of_omap. eauto. Qed.

Lemma lookup_app_plus {A} (l1 l2 : list A) (k : nat) :
  (l1 ++ l2) !! (length l1 + k)%nat = l2 !! k.
Proof. rewrite lookup_app_r by lia. f_equal. lia. Qed.

Ltac steps_cases :=
  repeat match goal with
         | |- context [match Sample.unmappedBam ?s with _ => _ end] =>
             destruct (Sample.unmappedBam s)
         | |- context [if String.eqb ?a ?b then _ else _] =>
             destruct (String.eqb a b)
         | |- context [if Sample.tagmented ?s then _ else _] =>
             destruct (Sample.tagmented s)
         end.

(** The signal/noise assessment is the third request of the last phase,
    is issued with [nofail], and is followed by a timestamp, the check of
    the peaks directory and the peak calling. *)
Lemma plan_signal_noise (args : Args.t) (prj : Project.t) (sample : Sample.t)
    (i : nat) (r : Request) :
  plan args prj sample !! i = Some r →
  step_of r = Some SignalNoise →
  (∃ c t ln sh, r = CallLock c t ln sh true) ∧
  ∃ m r3,
    plan args prj sample !! S i = Some (Timestamp m) ∧
    plan args prj sample !! S (S i) =
      Some (EnsureDir (SampleDirs.peaks (Sample.dirs sample))) ∧
    plan args prj sample !! S (S (S i)) = Some r3 ∧
    step_of r3 = Some PeakCalling.
Proof.
  intros Hi Hstep. revert Hi. unfold plan, downstream_plan.
  rewrite <- (merged_field Sample.dirs sample) by done.
  set (s := merged sample).
  destruct (lookups prj s) as [[[g|] [c|]] [w|]].
  2-8: intros Hi%list_elem_of_lookup_2; exfalso;
    apply (steps_elem_of _ _ _ Hi) in Hstep; revert Hstep;
    autorewrite with phases; steps_cases; cbn [app steps omap step_of];
    not_in_list.
  rewrite !app_assoc.
  match goal with
  | |- (?l ++ peaks_plan _ _ _) !! _ = _ → _ => set (pre := l)
  end.
  assert (Hpre' : r ∉ pre).
  { intros Hr. apply (steps_elem_of _ _ _ Hr) in Hstep. revert Hstep.
    unfold pre. autorewrite with phases. steps_cases.
    all: cbn [app steps omap step_of]; not_in_list. }
  intros Hi. destruct (decide (i < length pre)%nat) as [Hlt|Hge].
  { rewrite lookup_app_l in Hi by done.
    by apply list_elem_of_lookup_2 in Hi. }
  assert (∃ j, i = (length pre + j)%nat) as [j ->]
    by (exists (i - length pre)%nat; lia).
  rewrite <- !Nat.add_succ_r, !lookup_app_plus in *.
  rename Hi into Hj.
  unfold peaks_plan in *.
  destruct j as [|[|[|[|[|[|[|[|j]]]]]]]]; cbn in Hj; try done.
  all: injection Hj as <-; try discriminate Hstep.
  split; [by eauto 10|]. do 2 eexists. split_and!; reflexivity.
Qed.

(** C4 (as amended).  The step whose failure the driver tolerates is the
    signal/noise assessment: whenever the log records it as failed, the
    failure is of the tolerated kind and the run goes on to the check of
    the peaks directory, two requests later.  If that check passes, the
    peak calling is served next.  The only other outcome is that the
    directory was missing and [os.makedirs] raised: then the run ends
    there with [OSError] and the peak calling is never reached. *)
Theorem C4_signal_noise_failure_is_tolerated (env : Env) (args : Args.t)
    (prj : Project.t) (sample : Sample.t) (w : World)
    (i : nat) (r : Request) (nofail : bool) :
  let t := run_process env args prj sample w in
  let d := SampleDirs.peaks (Sample.dirs sample) in
  log t !! i = Some (r, Failed nofail) →
  step_of r = Some SignalNoise →
  nofail = true ∧
  ∃ res, log t !! (i + 2)%nat = Some (EnsureDir d, res) ∧
    ((res = Logged ∧
      ∃ r' res', log t !! (i + 3)%nat = Some (r', res') ∧
                 step_of r' = Some PeakCalling) ∨
     (res = Errored ∧
      (d ∉ files w) ∧
      (∃ fs partial, os_makedirs env d fs = MadeThenRaised partial) ∧
      ending t = Some OSError ∧ length (log t) = (i + 3)%nat)).
Proof.
  intros t d. subst t d.
  rewrite run_process_ending, run_process_log, requests_plan.
  intros Hi Hstep.
  pose proof (run_log_lookup _ _ _ _ _ _ Hi) as Hreq.
  destruct (plan_signal_noise _ _ _ _ _ Hreq Hstep)
    as ((c & tg & ln & sh & ->) & m & r3 & H1 & H2 & H3 & Hr3).
  destruct (run_log_result _ _ _ _ _ _ Hi) as [w0 Hres].
  symmetry in Hres. apply execute_call_lock_failed in Hres as ->.
  split; [reflexivity|].
  destruct (run_next _ _ _ _ _ _ _ Hi eq_refl H1) as [res1 Hl1].
  destruct (run_log_result _ _ _ _ _ _ Hl1) as [w1 ->].
  destruct (run_next _ _ _ _ _ _ _ Hl1 eq_refl H2) as [res2 Hl2].
  replace (i + 2)%nat with (S (S i)) by lia.
  replace (i + 3)%nat with (S (S (S i))) by lia.
  exists res2. split; [exact Hl2|].
  destruct (run_log_served _ _ _ _ _ _ Hl2) as (w2 & Hsub & Hres2).
  set (d := SampleDirs.peaks (Sample.dirs sample)) in *.
  assert (Hcases : res2 = Logged ∨
                   (res2 = Errored ∧ (d ∉ files w2) ∧
                    ∃ partial,
                      os_makedirs env d (files w2) = MadeThenRaised partial)).
  { rewrite Hres2. cbn [execute]. unfold ensure_dir.
    case_bool_decide; [by left|].
    destruct (os_makedirs env d (files w2)) eqn:Hmk; [by left|].
    right. by eauto. }
  destruct Hcases as [-> | (-> & Hd & partial & Hmk)].
  - left. split; [reflexivity|].
    destruct (run_next _ _ _ _ _ _ _ Hl2 eq_refl H3) as [res3 Hl3]. eauto.
  - right.
    destruct (run_raised_last _ _ _ _ _ _ OSError Hl2 eq_refl) as [-> ->].
    split_and!; [reflexivity|set_solver|by eauto|reflexivity|reflexivity].
Qed.

(** The signal/noise tool exits non-zero and directories can be created:
    the peaks directory is checked at entry 37 and peak calling is entry
    38 of the log. *)
Lemma C4_signal_noise_witness :
  let t := run_process (Ex.env (Ex.only SignalNoise) Ex.never ExitFail)
             (Ex.args "trimmomatic") Ex.prj
             (Ex.sample true true Ex.replicates) Ex.empty in
  ∃ r' res', log t !! 38%nat = Some (r', res') ∧
             step_of r' = Some PeakCalling.
Proof.
  intros t.
  destruct (C4_signal_noise_failure_is_tolerated
              (Ex.env (Ex.only SignalNoise) Ex.never ExitFail)
              (Ex.args "trimmomatic") Ex.prj
              (Ex.sample true true Ex.replicates) Ex.empty
              35%nat
              (CallLock
                 (tk.peakTools
                    (Sample.filteredshifted (Ex.sample true true Ex.replicates))
                    (Sample.qc (Ex.sample true true Ex.replicates))
                    (Sample.qcPlot (Ex.sample true true Ex.replicates))
                    (Args.cpus (Ex.args "trimmomatic")))
                 (Some (Sample.qcPlot (Ex.sample true true Ex.replicates)))
                 None true true)
              true ltac:(vm_compute; reflexivity) eq_refl)
    as (_ & res & _ & [(_ & Hpeaks) | (_ & _ & _ & Hend & _)]).
  - exact Hpeaks.
  - vm_compute in Hend. discriminate Hend.
Defined.

(** The same failure on a disk where the peaks directory is missing and
    cannot be created: the run ends with [OSError] after 38 entries and
    the peak calling is not among them. *)
Lemma signal_noise_then_makedirs_raises :
  let t := run_process
             (Ex.read_only (Ex.env (Ex.only SignalNoise) Ex.never ExitFail))
             (Ex.args "trimmomatic") Ex.prj
             (Ex.sample true true Ex.replicates) Ex.empty in
  ending t = Some OSError ∧ length (log t) = 38%nat ∧
  PeakCalling ∉ steps (log t).*1.
Proof.
  intros t. split_and!; [vm_compute; reflexivity|vm_compute; reflexivity|].
  vm_compute. not_in_list.
Qed.

(** The insert-size plot raises: the run stops there and peak calling is
    never reached. *)
Lemma C4_counterexample :
  let t := run_process (Ex.env Ex.never (Ex.only FragmentSize) ExitFail)
             (Ex.args "trimmomatic") Ex.prj
             (Ex.sample true true Ex.replicates) Ex.empty in
  ¬ (∀ i r, log t !! i = Some (r, Failed false) →
            step_of r = Some FragmentSize →
            PeakCalling ∈ steps (log t).*1).
Proof.
  intros t H.
  specialize (H 31%nat
    (Invoke (tk.plotInsertSizesFit
       (Sample.filtered (Ex.sample true true Ex.replicates))
       (Sample.insertplot (Ex.sample true true Ex.replicates))
       (Sample.insertdata (Ex.sample true true Ex.replicates))))).
  assert (Hlog : log t !! 31%nat =
            Some (Invoke (tk.plotInsertSizesFit
                    (Sample.filtered (Ex.sample true true Ex.replicates))
                    (Sample.insertplot (Ex.sample true true Ex.replicates))
                    (Sample.insertdata (Ex.sample true true Ex.replicates))),
                  Failed false))
    by (vm_compute; reflexivity).
  specialize (H Hlog eq_refl). clear Hlog.
  vm_compute in H. revert H. not_in_list.
Qed.

(** ** C9: the exit status *)

(** C9 (as amended).  The process exits with status 0 when the run ends
    without an exception and with status 1 otherwise, whether the run was
    cut by a failed step, by a missing genome key or by an interruption. *)
Theorem C9_exit_status (env : Env) (samplePickle : string) (prj : Project.t)
    (sample : Sample.t) (args : Args.t) (w : World) :
  exit_status env samplePickle (prj, sample, args) w =
    match ending (run_process env args prj sample w) with
    | None => 0
    | Some _ => 1
    end.
Proof.
  unfold exit_status, main.
  destruct (ending (run_process env args prj sample w)) as [e|] eqn:Hend;
    cbn [fst]; [|reflexivity].
  rewrite run_process_ending in Hend.
  destruct (ending (run env _ w)) as [e'|] eqn:Hrun.
  - injection Hend as ->. by apply run_ending_kind in Hrun as [-> | [-> | ->]].
  - rewrite driver_raised_plan in Hend. unfold plan_raised in Hend.
    destruct (lookups _ _) as [[[?|] [?|]] [?|]]; simplify_eq; reflexivity.
Qed.

(** A failed alignment and an interrupted alignment give the same exit
    status. *)
Lemma C9_counterexample :
  let failing := Ex.env (Ex.only Align) Ex.never ExitFail in
  let interrupted := Ex.env (Ex.only Align) Ex.never Interrupted in
  let pickled :=
    (Ex.prj, Ex.sample true true Ex.replicates, Ex.args "trimmomatic") in
  ¬ ((main failing "s1.pickle" pickled Ex.empty).1 = ToolFailure →
     (main interrupted "s1.pickle" pickled Ex.empty).1 = KeyboardInterrupt →
     exit_status interrupted "s1.pickle" pickled Ex.empty ≠
       exit_status failing "s1.pickle" pickled Ex.empty).
Proof.
  intros failing interrupted pickled H.
  apply H; vm_compute; reflexivity.
Qed.

(** * Further properties of the driver *)

Ltac if_cases :=
  repeat match goal with
         | |- context [if ?c then _ else _] => destruct c
         | |- context [match ?o with Some _ => _ | None => _ end] =>
             destruct o
         | |- context [match ?o with BamPath _ => _ | BamList _ => _ end] =>
             destruct o
         end.

(** ** [main] and the pickle *)




(** A pickle whose name holds a blank: the shell takes the two halves for
    two paths, so the pickle survives and the file named by the first
    half is removed. *)
Lemma main_unquoted_pickle :
  let w := mkWorld {[ "my sample.pickle"; "my" ]} [] in
  let after :=
    (main Ex.all_ok "my sample.pickle"
       (Ex.prj, Ex.sample false true Ex.single, Ex.args "skewer") w).2 in
  "my sample.pickle" ∈ files after ∧ ("my" ∉ files after).
Proof.
  intros w after.
  split; apply (bool_decide_unpack _); vm_compute; exact I.
Qed.

(** ** The disposal registry *)

Lemma disposals_plan_intermediate (args : Args.t) (prj : Project.t)
    (sample : Sample.t) :
  Forall (λ d, d.2 = true ∧
               d.1 ∈ [ Sample.fastq sample; Sample.fastq1 sample;
                       Sample.fastq2 sample; Sample.fastqUnpaired sample;
                       Sample.trimmed sample; Sample.trimmed1 sample;
                       Sample.trimmed1Unpaired sample; Sample.trimmed2 sample;
                       Sample.trimmed2Unpaired sample; Sample.mapped sample ])
         (disposals (plan args prj sample)).
Proof.
  unfold plan. autorewrite with phases.
  rewrite disposals_downstream_plan.
  split_raw sample; if_cases; cbn [app].
  all: repeat (constructor; [split; [reflexivity|cbn [fst]; set_solver]|]).
  all: constructor.
Qed.

(** X2.  Whatever the tools do and wherever the run stops, every entry
    the driver has put in the disposal registry is conditional, and its
    path is the value of one of ten fields of the descriptor: [fastq],
    [fastq1], [fastq2], [fastqUnpaired], [trimmed], [trimmed1],
    [trimmed1Unpaired], [trimmed2], [trimmed2Unpaired] or [mapped].  So a
    path that is the value of none of these ten fields is never
    registered. *)
Theorem X2_registry_holds_conditional_intermediates (env : Env)
    (args : Args.t) (prj : Project.t) (sample : Sample.t)
    (existing : gset string) :
  let t := run_process env args prj sample (mkWorld existing []) in
  let intermediates :=
    [ Sample.fastq sample; Sample.fastq1 sample;
      Sample.fastq2 sample; Sample.fastqUnpaired sample;
      Sample.trimmed sample; Sample.trimmed1 sample;
      Sample.trimmed1Unpaired sample; Sample.trimmed2 sample;
      Sample.trimmed2Unpaired sample; Sample.mapped sample ] in
  Forall (λ d, d.2 = true ∧ d.1 ∈ intermediates) (registry (final t)) ∧
  ∀ p c, p ∉ intermediates → (p, c) ∉ registry (final t).
Proof.
  cbv zeta. rewrite run_process_final, run_registry. cbn [registry app].
  pose proof (disposals_plan_intermediate args prj sample) as Hall.
  rewrite <- requests_plan in Hall.
  destruct (run_log_prefix env (requests args prj sample) (mkWorld existing []))
    as [rest Hrest].
  rewrite Hrest, disposals_app in Hall. apply Forall_app in Hall as [Hall _].
  split; [exact Hall|].
  intros p c Hp Hin. apply Hp.
  exact (proj2 (proj1 (Forall_forall _ _) Hall _ Hin)).
Qed.

(** X3.  A run that ends without an exception, started from an empty
    registry, has registered the fastq files (three if paired, one
    otherwise), then the trimmed files of the chosen trimmer (four for
    trimmomatic and two for skewer if paired, one otherwise, none for any
    other trimmer), then the mapped BAM. *)
Theorem X3_disposals_by_branch (env : Env) (args : Args.t) (prj : Project.t)
    (sample : Sample.t) (existing : gset string) :
  let t := run_process env args prj sample (mkWorld existing []) in
  ending t = None →
  registry (final t) =
    (if Sample.paired sample
     then [ (Sample.fastq1 sample, true); (Sample.fastq2 sample, true);
            (Sample.fastqUnpaired sample, true) ]
     else [ (Sample.fastq sample, true) ]) ++
    (if String.eqb (Args.trimmer args) "trimmomatic" then
       if Sample.paired sample
       then [ (Sample.trimmed1 sample, true);
              (Sample.trimmed1Unpaired sample, true);
              (Sample.trimmed2 sample, true);
              (Sample.trimmed2Unpaired sample, true) ]
       else [ (Sample.trimmed sample, true) ]
     else if String.eqb (Args.trimmer args) "skewer" then
       if Sample.paired sample
       then [ (Sample.trimmed1 sample, true); (Sample.trimmed2 sample, true) ]
       else [ (Sample.trimmed sample, true) ]
     else []) ++
    [ (Sample.mapped sample, true) ] ∧
  length (registry (final t)) =
    ((if Sample.paired sample then 3 else 1) +
     (if String.eqb (Args.trimmer args) "trimmomatic"
      then if Sample.paired sample then 4 else 1
      else if String.eqb (Args.trimmer args) "skewer"
      then if Sample.paired sample then 2 else 1
      else 0) + 1)%nat.
Proof.
  intros t Hend. subst t.
  apply run_process_finished in Hend as (_ & (g & c & w & Hlook) & ->).
  cbn [registry app]. rewrite requests_plan. unfold plan.
  autorewrite with phases.
  rewrite disposals_downstream_plan, lookups_merged, Hlook. cbn [fst].
  split_raw sample; if_cases; split; reflexivity.
Qed.

(** Skewer on a paired sample: six registrations. *)
Lemma X3_disposals_witness :
  length (registry (final
    (run_process Ex.all_ok (Ex.args "skewer") Ex.prj
       (Ex.sample true true Ex.single) Ex.empty))) = 6%nat.
Proof.
  refine (proj2 (X3_disposals_by_branch Ex.all_ok (Ex.args "skewer") Ex.prj
                   (Ex.sample true true Ex.single) ∅ _)).
  vm_compute. reflexivity.
Defined.

(** ** Flags, failures and missing keys *)

Ltac each_request tac :=
  unfold plan, downstream_plan;
  match goal with |- context [lookups ?p ?s] =>
    destruct (lookups p s) as [[[?|] [?|]] [?|]] end;
  rewrite ?Forall_app; split_and!;
  unfold merge_plan, upstream_plan, trim_plan, align_plan, track_plan,
    peaks_plan;
  if_cases; cbn [app negb];
  repeat (constructor; [tac|]); try constructor.

Lemma plan_flags (args : Args.t) (prj : Project.t) (sample : Sample.t) :
  Forall (λ r, ∀ st shell nofail,
            flags r = Some (st, shell, nofail) →
            shell = true ∧ (nofail = true ↔ st = SignalNoise))
         (plan args prj sample).
Proof.
  each_request ltac:(
    let H := fresh in
    intros ? ? ? H;
    first [ discriminate H
          | injection H as <- <- <-;
            split; [reflexivity|split; intros; (reflexivity || discriminate)] ]).
Qed.

(** X4.  Every command the driver hands to the executor is issued with
    [shell=True], and [nofail=True] is set for the signal/noise
    assessment and for no other step. *)
Theorem X4_shell_always_nofail_only_signal_noise
    (args : Args.t) (prj : Project.t) (sample : Sample.t) :
  Forall (λ r, ∀ st shell nofail,
            flags r = Some (st, shell, nofail) →
            shell = true ∧ (nofail = true ↔ st = SignalNoise))
         (requests args prj sample).
Proof. rewrite requests_plan. apply plan_flags. Qed.

(** X5.  When the log records a failed step other than the signal/noise
    assessment, that failure is not tolerated: it is the last entry of
    the log, no later request is served, and the run ends with the
    failure. *)
Theorem X5_failure_elsewhere_ends_the_run (env : Env) (args : Args.t)
    (prj : Project.t) (sample : Sample.t) (w : World)
    (i : nat) (r : Request) (nofail : bool) :
  let t := run_process env args prj sample w in
  log t !! i = Some (r, Failed nofail) →
  step_of r ≠ Some SignalNoise →
  nofail = false ∧ ending t = Some ToolFailure ∧ length (log t) = S i.
Proof.
  intros t. subst t.
  rewrite run_process_log, run_process_ending. intros Hi Hstep.
  assert (nofail = false) as ->.
  { pose proof (run_log_lookup _ _ _ _ _ _ Hi) as Hreq.
    destruct (run_log_result _ _ _ _ _ _ Hi) as [w0 Hres]. symmetry in Hres.
    destruct r as [|c tg ln sh nf| |call|]; try discriminate Hres.
    - apply execute_call_lock_failed in Hres as ->.
      pose proof (plan_flags args prj sample) as Hflags.
      rewrite <- requests_plan in Hflags.
      pose proof (proj1 (Forall_forall _ _) Hflags _
                    (list_elem_of_lookup_2 _ _ _ Hreq) _ _ _ eq_refl)
        as [_ Hnf].
      destruct nf; [|done]. destruct Hstep. cbn [step_of]. f_equal.
      by apply Hnf.
    - revert Hres. cbn [execute]. unfold invoke. cbn [fst].
      destruct (status _); cbn [result_of]; congruence.
    - revert Hres. cbn [execute]. unfold ensure_dir.
      case_bool_decide; [|destruct (os_makedirs _ _ _)]; discriminate. }
  destruct (run_raised_last _ _ _ _ _ _ ToolFailure Hi eq_refl) as [-> ->].
  done.
Qed.

(** The alignment exits non-zero: the log stops at entry 16. *)
Lemma X5_failure_witness :
  let t := run_process (Ex.env (Ex.only Align) Ex.never ExitFail)
             (Ex.args "trimmomatic") Ex.prj
             (Ex.sample true true Ex.replicates) Ex.empty in
  ending t = Some ToolFailure ∧ length (log t) = 17%nat.
Proof.
  intros t.
  refine (proj2 (X5_failure_elsewhere_ends_the_run
                   (Ex.env (Ex.only Align) Ex.never ExitFail)
                   (Ex.args "trimmomatic") Ex.prj
                   (Ex.sample true true Ex.replicates) Ex.empty
                   16%nat _ false _ _)).
  - vm_compute. reflexivity.
  - discriminate.
Defined.

(** X6.  A genome missing from a table is noticed only when the driver
    reaches the lookup, and it raises [KeyError] on the genome.  Missing
    from the alignment indices: the script stops at the mapping
    timestamp, after the upstream steps.  Missing from the chromosome
    sizes: alignment, filtering, shifting and indexing are issued first,
    and the script stops at the track timestamp.  Missing from the genome
    windows: track, hub registration, hub linking and the insert-size
    plot are issued as well, and the script stops at the coverage
    timestamp.  With all three present the driver raises nothing. *)
Theorem X6_missing_genome_key
    (args : Args.t) (prj : Project.t) (sample : Sample.t) :
  let rs := requests args prj sample in
  let upstream :=
    match Sample.unmappedBam sample with
    | BamList _ => [Merge]
    | BamPath _ => []
    end ++ [QualityReport; FormatConversion] ++
    (if String.eqb (Args.trimmer args) "trimmomatic" then [Trim]
     else if String.eqb (Args.trimmer args) "skewer" then [Trim] else []) in
  let mapping :=
    [Align; QualityFilter] ++
    (if Sample.tagmented sample then [Shift] else []) ++ [Index; Index] ++
    (if Sample.tagmented sample then [Index] else []) in
  let tracks := [SignalTrack; HubRegistration; HubLink; FragmentSize] in
  let key_error := Some (KeyError (Sample.genome sample)) in
  match lookups prj sample with
  | (None, _, _) =>
      driver_raised args prj sample = key_error ∧
      steps rs = upstream ∧
      last rs = Some (Timestamp "Mapping reads with Bowtie2")
  | (Some _, None, _) =>
      driver_raised args prj sample = key_error ∧
      steps rs = upstream ++ mapping ∧
      last rs = Some (Timestamp "Making bigWig tracks from bam file")
  | (Some _, Some _, None) =>
      driver_raised args prj sample = key_error ∧
      steps rs = upstream ++ mapping ++ tracks ∧
      last rs = Some (Timestamp "Calculating genome-wide coverage")
  | (Some _, Some _, Some _) => driver_raised args prj sample = None
  end.
Proof.
  cbv zeta. rewrite requests_plan, driver_raised_plan.
  unfold plan, plan_raised, downstream_plan. rewrite lookups_merged.
  autorewrite with phases.
  destruct (lookups prj sample) as [[[g|] [c|]] [w|]]; [done|..].
  all: split_and!;
    [ by rewrite (merged_field Sample.genome)
    | autorewrite with phases;
      rewrite ?(merged_field Sample.tagmented) by done;
      rewrite ?app_nil_r, <- ?app_assoc; reflexivity
    | unfold align_plan, track_plan; rewrite !last_app; reflexivity ].
Qed.

(** X7.  When one of the three tables lacks the sample's genome, no run
    ends without an exception, whatever the tools do, and the process
    exits with status 1. *)
Theorem X7_missing_key_exit_status (env : Env) (samplePickle : string)
    (prj : Project.t) (sample : Sample.t) (args : Args.t) (w : World) :
  ¬ resolves prj sample →
  ending (run_process env args prj sample w) ≠ None ∧
  exit_status env samplePickle (prj, sample, args) w = 1.
Proof.
  intros Hno.
  assert (Hend : ending (run_process env args prj sample w) ≠ None).
  { intros Hend. by apply run_process_finished in Hend as (_ & ? & _). }
  split; [exact Hend|]. unfold exit_status, main.
  destruct (ending (run_process env args prj sample w)) as [e|] eqn:He;
    [|done]. cbn [fst].
  rewrite run_process_ending in He.
  destruct (ending (run env _ w)) as [e'|] eqn:Hrun.
  - injection He as ->. by apply run_ending_kind in Hrun as [-> | [-> | ->]].
  - rewrite driver_raised_plan in He. unfold plan_raised in He.
    destruct (lookups _ _) as [[[?|] [?|]] [?|]]; simplify_eq; reflexivity.
Qed.

(** A project without alignment indices. *)
Lemma X7_missing_key_witness :
  exit_status Ex.all_ok "s1.pickle"
    (Ex.prj_without_index, Ex.sample true true Ex.single,
     Ex.args "trimmomatic") Ex.empty = 1.
Proof.
  refine (proj2 (X7_missing_key_exit_status Ex.all_ok "s1.pickle"
                   Ex.prj_without_index (Ex.sample true true Ex.single)
                   (Ex.args "trimmomatic") Ex.empty _)).
  intros (g & c & w & H). vm_compute in H. discriminate H.
Defined.

(** ** The run in which every tool succeeds *)

Lemma run_all_ok env rs w :
  (∀ c fs, status (run_cmd env c fs) = ExitOk) →
  (∀ c fs, status (run_call env c fs) = ExitOk) →
  Forall (λ r, match r with
               | EnsureDir p => ∀ fs, os_makedirs env p fs = AllMade
               | _ => True
               end) rs →
  ending (run env rs w) = None.
Proof.
  intros Hcmd Hcall Hdirs. revert w.
  induction rs as [|r rest IH]; intros w; [done|].
  inversion Hdirs as [|? ? Hr Hrest]; subst.
  rewrite run_cons.
  assert (raised_by (execute env r w).1 = None) as ->; [|by apply IH].
  destruct r as [|c [tg|]| | |p]; cbn [execute]; try done.
  - unfold call_lock. case_bool_decide; [done|].
    unfold invoke. cbn [fst]. by rewrite Hcmd.
  - unfold call_lock, invoke. cbn [fst]. by rewrite Hcmd.
  - unfold invoke. cbn [fst]. by rewrite Hcall.
  - unfold ensure_dir. case_bool_decide; [done|]. by rewrite Hr.
Qed.

(** The only directory the script asks for is the peaks directory of the
    sample. *)
Lemma plan_ensure_dirs (args : Args.t) (prj : Project.t) (sample : Sample.t) :
  Forall (λ r, match r with
               | EnsureDir p => p = SampleDirs.peaks (Sample.dirs sample)
               | _ => True
               end) (plan args prj sample).
Proof.
  rewrite <- (merged_field Sample.dirs sample) by done.
  unfold plan, downstream_plan.
  destruct (lookups prj _) as [[[g|] [c|]] [w|]].
  all: rewrite ?Forall_app; split_and!; try untargeted_phase.
Qed.

(** X8.  When every command and every direct toolkit call exits with
    status zero, [os.makedirs] does not raise on the peaks directory and
    the three tables know the genome, the run ends without an exception,
    it has gone through every request of the script, and the process
    exits with status 0. *)
Theorem X8_success_path (env : Env) (samplePickle : string)
    (prj : Project.t) (sample : Sample.t) (args : Args.t) (w : World) :
  (∀ c fs, status (run_cmd env c fs) = ExitOk) →
  (∀ c fs, status (run_call env c fs) = ExitOk) →
  (∀ fs, os_makedirs env (SampleDirs.peaks (Sample.dirs sample)) fs =
         AllMade) →
  resolves prj sample →
  let t := run_process env args prj sample w in
  ending t = None ∧
  (log t).*1 = requests args prj sample ∧
  exit_status env samplePickle (prj, sample, args) w = 0.
Proof.
  intros Hcmd Hcall Hmk Hres t. subst t.
  assert (Hend : ending (run_process env args prj sample w) = None).
  { rewrite run_process_ending, (run_all_ok _ _ _ Hcmd Hcall).
    - rewrite driver_raised_plan.
      by apply resolves_not_raised, resolves_merged.
    - rewrite requests_plan.
      eapply Forall_impl; [apply plan_ensure_dirs|].
      intros [] Hr; try exact I. subst. exact Hmk. }
  split_and!; [exact Hend| |].
  - by apply run_process_finished in Hend as (? & _).
  - unfold exit_status, main. by rewrite Hend.
Qed.

(** Single-end, skewer, every tool succeeding. *)
Lemma X8_success_witness :
  exit_status Ex.all_ok "s1.pickle"
    (Ex.prj, Ex.sample false true Ex.single, Ex.args "skewer") Ex.empty = 0.
Proof.
  refine (proj2 (proj2 (X8_success_path Ex.all_ok "s1.pickle" Ex.prj
                          (Ex.sample false true Ex.single) (Ex.args "skewer")
                          Ex.empty _ _ _ _))).
  - reflexivity.
  - intros [] ?; reflexivity.
  - reflexivity.
  - do 3 eexists. vm_compute. reflexivity.
Defined.

(** With every tool succeeding but the peaks directory missing and not
    creatable, the run ends with [OSError] and the process exits with
    status 1. *)
Lemma all_tools_ok_but_makedirs_raises :
  let t := run_process (Ex.read_only Ex.all_ok) (Ex.args "skewer") Ex.prj
             (Ex.sample false true Ex.single) Ex.empty in
  ending t = Some OSError ∧
  exit_status (Ex.read_only Ex.all_ok) "s1.pickle"
    (Ex.prj, Ex.sample false true Ex.single, Ex.args "skewer") Ex.empty = 1.
Proof. intros t. split; vm_compute; reflexivity. Qed.

(** ** The peaks directory *)

(** A check of a directory that did not raise leaves the directory in
    place. *)
Lemma run_served_ensure env rs w j d res :
  log (run env rs w) !! j = Some (EnsureDir d, res) →
  raised_by res = None →
  d ∈ files (final (run env rs w)).
Proof.
  revert w j. induction rs as [|r rest IH]; intros w j; [done|].
  rewrite run_cons. destruct (raised_by (execute env r w).1) eqn:Hr;
    cbn [log final].
  - destruct j; [|done]. intros [= -> <-]. congruence.
  - destruct j as [|j]; [|apply IH].
    intros [= -> <-] _. apply (run_files env rest). revert Hr.
    cbn [execute snd fst]. unfold ensure_dir. case_bool_decide; [done|].
    destruct (os_makedirs env d (files w)); [|done].
    intros _. unfold write. cbn [snd files]. set_solver.
Qed.

Lemma run_log_earlier env rs w j e :
  log (run env rs w) !! S j = Some e →
  ∃ r res, rs !! j = Some r ∧ log (run env rs w) !! j = Some (r, res).
Proof.
  intros He. apply lookup_lt_Some in He.
  destruct (lookup_lt_is_Some_2 (log (run env rs w)) j) as [[r res] Hj]; [lia|].
  exists r, res. split; [|done]. by eapply run_log_lookup.
Qed.

(** The peak calling comes right after the check of the peaks
    directory. *)
Lemma plan_peak_calling (args : Args.t) (prj : Project.t) (sample : Sample.t)
    (i : nat) (r : Request) :
  plan args prj sample !! i = Some r →
  step_of r = Some PeakCalling →
  ∃ j, i = S j ∧
       plan args prj sample !! j =
         Some (EnsureDir (SampleDirs.peaks (Sample.dirs sample))).
Proof.
  intros Hi Hstep. revert Hi. unfold plan, downstream_plan.
  rewrite <- (merged_field Sample.dirs sample) by done.
  set (s := merged sample).
  destruct (lookups prj s) as [[[g|] [c|]] [w|]].
  2-8: intros Hi%list_elem_of_lookup_2; exfalso;
    apply (steps_elem_of _ _ _ Hi) in Hstep; revert Hstep;
    autorewrite with phases; steps_cases; cbn [app steps omap step_of];
    not_in_list.
  rewrite !app_assoc.
  match goal with
  | |- (?l ++ peaks_plan _ _ _) !! _ = _ → _ => set (pre := l)
  end.
  assert (Hpre' : r ∉ pre).
  { intros Hr. apply (steps_elem_of _ _ _ Hr) in Hstep. revert Hstep.
    unfold pre. autorewrite with phases. steps_cases.
    all: cbn [app steps omap step_of]; not_in_list. }
  intros Hi. destruct (decide (i < length pre)%nat) as [Hlt|Hge].
  { rewrite lookup_app_l in Hi by done.
    by apply list_elem_of_lookup_2 in Hi. }
  assert (∃ k, i = (length pre + k)%nat) as [k ->]
    by (exists (i - length pre)%nat; lia).
  rewrite lookup_app_plus in Hi. unfold peaks_plan in *.
  destruct k as [|[|[|[|[|[|[|[|k]]]]]]]]; cbn in Hi; try done.
  all: injection Hi as <-; try discriminate Hstep.
  exists (length pre + 4)%nat. split; [lia|]. by rewrite lookup_app_plus.
Qed.

(** X9.  Whenever the peak calling is served, the peaks directory of the
    sample exists: the driver has created it if it was missing. *)
Theorem X9_peaks_directory_exists_for_peak_calling (env : Env)
    (args : Args.t) (prj : Project.t) (sample : Sample.t) (w : World)
    (i : nat) (r : Request) (res : StepResult) :
  let t := run_process env args prj sample w in
  log t !! i = Some (r, res) →
  step_of r = Some PeakCalling →
  SampleDirs.peaks (Sample.dirs sample) ∈ files (final t).
Proof.
  intros t. subst t. rewrite run_process_log, run_process_final.
  intros Hi Hstep.
  pose proof (run_log_lookup _ _ _ _ _ _ Hi) as Hreq.
  rewrite requests_plan in Hreq.
  destruct (plan_peak_calling _ _ _ _ _ Hreq Hstep) as (j & -> & Hj).
  destruct (run_log_earlier _ _ _ _ _ Hi) as (r' & res' & Hr' & Hlog).
  rewrite requests_plan, Hj in Hr'. injection Hr' as <-.
  eapply run_served_ensure; [exact Hlog|].
  destruct (raised_by res') as [e|] eqn:Hraised; [|reflexivity].
  destruct (run_raised_last _ _ _ _ _ _ _ Hlog Hraised) as [_ Hlen].
  apply lookup_lt_Some in Hi. lia.
Qed.

(** A run from an empty filesystem that reaches the peak calling. *)
Lemma X9_peaks_directory_witness :
  SampleDirs.peaks (Sample.dirs (Ex.sample true true Ex.replicates)) ∈
    files (final (run_process Ex.all_ok (Ex.args "trimmomatic") Ex.prj
                    (Ex.sample true true Ex.replicates) Ex.empty)).
Proof.
  refine (X9_peaks_directory_exists_for_peak_calling Ex.all_ok
            (Ex.args "trimmomatic") Ex.prj (Ex.sample true true Ex.replicates)
            Ex.empty 38%nat _ _ _ _).
  - vm_compute. reflexivity.
  - reflexivity.
Defined.

(** ** Running the workflow again *)

Lemma run_skips_present env rs w :
  Forall (λ e, ∀ tg, target_of e.1 = Some tg → tg ∈ files w → e.2 = Skipped)
         (log (run env rs w)).
Proof.
  revert w. induction rs as [|r rest IH]; intros w; [constructor|].
  rewrite run_cons.
  assert (Hhere : ∀ tg, target_of r = Some tg → tg ∈ files w →
                        (execute env r w).1 = Skipped).
  { intros tg Htg Hin. destruct r; try discriminate Htg.
    cbn in Htg. subst. cbn [execute]. unfold call_lock.
    by rewrite bool_decide_eq_true_2. }
  destruct (raised_by _); cbn [log].
  - by repeat constructor.
  - constructor; [exact Hhere|].
    eapply Forall_impl; [apply IH|]. intros e He tg Htg Hin.
    apply (He tg Htg). by apply (execute_files env r w).
Qed.

Lemma run_leaves_targets env rs w :
  (∀ c tg ln sh nf fs,
     CallLock c (Some tg) ln sh nf ∈ rs →
     status (run_cmd env c fs) = ExitOk → tg ∈ writes (run_cmd env c fs)) →
  Forall (λ e, ∀ tg, target_of e.1 = Some tg →
               e.2 = Skipped ∨ e.2 = Completed →
               tg ∈ files (final (run env rs w)))
         (log (run env rs w)).
Proof.
  revert w. induction rs as [|r rest IH]; intros w Hw; [constructor|].
  rewrite run_cons.
  assert (Hhere : ∀ tg, target_of r = Some tg →
            (execute env r w).1 = Skipped ∨ (execute env r w).1 = Completed →
            tg ∈ files (execute env r w).2).
  { intros tg Htg. destruct r as [|c t ln sh nf| | |]; try discriminate Htg.
    cbn in Htg. subst t. cbn [execute]. unfold call_lock.
    case_bool_decide; [done|]. unfold invoke, write. cbn [fst snd files].
    destruct (status _) eqn:Hst; cbn [result_of]; intros [?|?]; try done.
    apply elem_of_union_r, elem_of_list_to_set.
    apply (Hw c tg ln sh nf (files w)); [apply list_elem_of_here|exact Hst]. }
  destruct (raised_by _); cbn [log final].
  - by repeat constructor.
  - constructor.
    + intros tg Htg Hres. apply (run_files env rest). by apply Hhere.
    + apply IH. intros c tg ln sh nf fs Hin. apply (Hw c tg ln sh nf).
      by apply list_elem_of_further.
Qed.

Lemma run_finished_results env rs w :
  ending (run env rs w) = None →
  Forall (λ e, raised_by e.2 = None) (log (run env rs w)).
Proof.
  revert w. induction rs as [|r rest IH]; intros w; [constructor|].
  rewrite run_cons. destruct (raised_by _) eqn:Hr; cbn [log ending]; [done|].
  intros Hend. constructor; [exact Hr|by apply IH].
Qed.

Lemma execute_call_lock_result env c tg ln sh nf w :
  let res := (execute env (CallLock c tg ln sh nf) w).1 in
  res = Skipped ∨ res = Completed ∨ res = Failed nf ∨ res = Cancelled.
Proof.
  cbn [execute]. unfold call_lock, invoke.
  destruct tg; [case_bool_decide|]; cbn [fst]; auto.
  all: destruct (status _); cbn [result_of]; auto.
Qed.

(** X10.  Suppose every command that exits with status zero leaves its
    declared target behind.  After a run that ended without an
    exception, a second run on the files it left skips every step that
    declares a target, except possibly the signal/noise assessment (whose
    failure the first run tolerates). *)
Theorem X10_second_run_skips_what_the_first_left (env : Env)
    (args : Args.t) (prj : Project.t) (sample : Sample.t) (w : World) :
  (∀ c tg ln sh nf fs,
     CallLock c (Some tg) ln sh nf ∈ requests args prj sample →
     status (run_cmd env c fs) = ExitOk → tg ∈ writes (run_cmd env c fs)) →
  let first := run_process env args prj sample w in
  ending first = None →
  let second :=
    run_process env args prj sample (mkWorld (files (final first)) []) in
  Forall (λ e, ∀ tg, target_of e.1 = Some tg →
               step_of e.1 ≠ Some SignalNoise → e.2 = Skipped)
         (log second).
Proof.
  intros Hwrites first Hend second. subst first second.
  rewrite run_process_log. rewrite run_process_final.
  pose proof Hend as Hfin.
  apply run_process_finished in Hfin as (Hall & _ & _).
  rewrite run_process_log in Hall.
  rewrite run_process_ending in Hend.
  destruct (ending (run env (requests args prj sample) w)) eqn:Hrun; [done|].
  pose proof (run_finished_results _ _ _ Hrun) as Hres.
  pose proof (run_leaves_targets env _ w Hwrites) as Hleft.
  set (w2 := mkWorld _ []).
  pose proof (run_skips_present env (requests args prj sample) w2) as Hskip.
  apply Forall_forall. intros [r res2] Hin tg Htg Hstep. cbn [fst snd] in *.
  apply (proj1 (Forall_forall _ _) Hskip _ Hin tg Htg). cbn [files w2].
  apply list_elem_of_lookup in Hin as [i Hi].
  pose proof (run_log_lookup _ _ _ _ _ _ Hi) as Hreq.
  assert (∃ res1, log (run env (requests args prj sample) w) !! i
                  = Some (r, res1)) as [res1 H1].
  { assert (Hlen : length (log (run env (requests args prj sample) w)) =
                   length (requests args prj sample)).
    { by rewrite <- Hall at 2; rewrite length_fmap. }
    apply lookup_lt_Some in Hreq as Hlt. rewrite <- Hlen in Hlt.
    destruct (lookup_lt_is_Some_2 _ _ Hlt) as [[r1 res1] H1].
    pose proof (run_log_lookup _ _ _ _ _ _ H1) as Hreq1.
    rewrite Hreq in Hreq1. injection Hreq1 as <-. eauto. }
  pose proof (list_elem_of_lookup_2 _ _ _ H1) as Hin1.
  pose proof (proj1 (Forall_forall _ _) Hres _ Hin1) as Hnone.
  apply (proj1 (Forall_forall _ _) Hleft _ Hin1 tg Htg). cbn [snd] in *.
  destruct (run_log_result _ _ _ _ _ _ H1) as [w1 ->].
  destruct r as [|c t ln sh nf| | |]; try discriminate Htg.
  destruct (execute_call_lock_result env c t ln sh nf w1) as [?|[?|[Hf|Hc]]];
    auto.
  - exfalso. rewrite Hf in Hnone. destruct nf; [|done].
    pose proof (plan_flags args prj sample) as Hflags.
    rewrite <- requests_plan in Hflags.
    pose proof (proj1 (Forall_forall _ _) Hflags _
                  (list_elem_of_lookup_2 _ _ _ Hreq) _ _ _ eq_refl)
      as [_ Hnf].
    apply Hstep. cbn [step_of]. f_equal. by apply Hnf.
  - exfalso. by rewrite Hc in Hnone.
Qed.

(** Tools that leave every target behind. *)
Lemma X10_second_run_witness :
  let args := Ex.args "trimmomatic" in
  let sample := Ex.sample true true Ex.replicates in
  let env := Ex.diligent (requests args Ex.prj sample) in
  let first := run_process env args Ex.prj sample Ex.empty in
  let second :=
    run_process env args Ex.prj sample (mkWorld (files (final first)) []) in
  Forall (λ e, ∀ tg, target_of e.1 = Some tg →
               step_of e.1 ≠ Some SignalNoise → e.2 = Skipped)
         (log second).
Proof.
  intros args sample env first second.
  refine (X10_second_run_skips_what_the_first_left env args Ex.prj sample
            Ex.empty _ _).
  - intros c tg ln sh nf fs Hin _. cbn [env Ex.diligent run_cmd writes].
    unfold targets. apply list_elem_of_omap. eauto.
  - vm_compute. reflexivity.
Defined.

(** X11.  The script for a list of raw inputs is the merge step followed
    by the script for the descriptor the driver leaves: calling [process]
    again on that descriptor issues no merge step and leaves it as it
    is. *)
Theorem X11_merge_is_the_only_trace_of_replicates
    (args : Args.t) (prj : Project.t) (sample : Sample.t) :
  let left := sample_after args prj sample in
  requests args prj sample =
    match Sample.unmappedBam sample with
    | BamList inputBams =>
        [ Timestamp "Merging bam files from replicates";
          CallLock (tk.mergeBams inputBams (Sample.unmapped sample))
            (Some (Sample.unmapped sample)) None true false ]
    | BamPath _ => []
    end ++ requests args prj left ∧
  sample_after args prj left = left ∧
  (Merge ∉ steps (requests args prj left)).
Proof.
  cbv zeta. rewrite !requests_plan, !sample_after_merged.
  assert (Hm : merged (merged sample) = merged sample).
  { unfold merged. by destruct (Sample.unmappedBam sample) eqn:H; rewrite ?H. }
  assert (Hmp : merge_plan (merged sample) = []).
  { unfold merge_plan, merged.
    by destruct (Sample.unmappedBam sample) eqn:H; rewrite ?H. }
  unfold plan. rewrite Hm, Hmp. split_and!; [done|done|].
  autorewrite with phases.
  pose proof (steps_downstream_plan_no Merge args prj (merged sample)) as Hd.
  intros H. rewrite !elem_of_app in H. destruct_or!; revert H.
  all: try (apply Hd; set_solver).
  all: if_cases; cbn; not_in_list.
Qed.

(** ** What each step reads *)

Ltac sample_fields :=
  cbn [Sample.set_unmappedBam Sample.name Sample.dirs Sample.genome
       Sample.paired Sample.tagmented Sample.unmappedBam Sample.unmapped
       Sample.fastq Sample.fastq1 Sample.fastq2 Sample.fastqUnpaired
       Sample.trimmed Sample.trimmed1 Sample.trimmed2
       Sample.trimmed1Unpaired Sample.trimmed2Unpaired Sample.trimlog
       Sample.mapped Sample.alnRates Sample.alnMetrics Sample.filtered
       Sample.dupsMetrics Sample.filteredshifted Sample.bigwig
       Sample.trackURL Sample.trackColour Sample.insertplot
       Sample.insertdata Sample.coverage Sample.qc Sample.qcPlot
       Sample.peaks Sample.frip].

Ltac known_path :=
  repeat first [ apply list_elem_of_here | apply list_elem_of_further ].

Ltac all_fed :=
  repeat match goal with
         | |- _ ∧ _ => split
         | |- Forall _ [] => constructor
         | |- Forall _ (_ :: _) => constructor; [known_path|]
         | |- Forall (λ p, p ∈ ?l) ?l => by apply Forall_forall
         | |- Forall (λ p, p ∈ _ :: _) _ =>
             apply Forall_forall; intros ? ?; known_path; assumption
         | |- True => exact I
         end.

(** X12.  For a tagmented sample, with trimmer trimmomatic or skewer and
    a project whose tables know the genome, every file a step is told to
    read is a raw input, one of the project's reference files (the
    adapters, and the alignment index, the chromosome sizes and the
    genome windows looked up for the genome), or a file that an earlier
    request declared as output or target. *)
Theorem X12_tagmented_steps_read_what_was_declared
    (args : Args.t) (prj : Project.t) (sample : Sample.t)
    (genomeIndex genomeSizes genomeWindows : string) :
  Sample.tagmented sample = true →
  Args.trimmer args = "trimmomatic" ∨ Args.trimmer args = "skewer" →
  lookups prj sample =
    (Some genomeIndex, Some genomeSizes, Some genomeWindows) →
  fed ([ Project.adapters (Project.config prj);
         genomeIndex; genomeSizes; genomeWindows ] ++
       Sample.raw_paths (Sample.unmappedBam sample))
      (requests args prj sample).
Proof.
  intros Htag Htrim Hlook.
  rewrite requests_plan. unfold plan, downstream_plan.
  rewrite lookups_merged, Hlook.
  unfold merge_plan. split_raw sample.
  all: unfold upstream_plan, trim_plan, align_plan, track_plan, peaks_plan.
  all: sample_fields; rewrite ?Hraw, Htag.
  all: destruct Htrim as [-> | ->];
    [ change (String.eqb "trimmomatic" "trimmomatic") with true
    | change (String.eqb "skewer" "trimmomatic") with false;
      change (String.eqb "skewer" "skewer") with true ];
    cbv iota.
  all: destruct (Sample.paired sample);
    cbn [app negb fed reads declares inputs outputs Sample.raw_paths].
  all: all_fed.
Qed.

(** Replicates, paired, tagmented, skewer. *)
Lemma X12_tagmented_witness :
  fed ([ "/adapters/nextera.fa"; "/genomes/hg19/bowtie2/hg19";
         "/genomes/hg19/hg19.chrom.sizes";
         "/genomes/hg19/hg19.1kb_windows.bed" ] ++
       Sample.raw_paths (Sample.unmappedBam (Ex.sample true true Ex.replicates)))
      (requests (Ex.args "skewer") Ex.prj (Ex.sample true true Ex.replicates)).
Proof.
  apply (X12_tagmented_steps_read_what_was_declared
           (Ex.args "skewer") Ex.prj (Ex.sample true true Ex.replicates)).
  - reflexivity.
  - right. reflexivity.
  - vm_compute. reflexivity.
Defined.

(** ** Paired and single reads *)

Lemma plan_pair_arguments (args : Args.t) (prj : Project.t)
    (sample : Sample.t) :
  Forall (λ r, match r with
               | CallLock c _ _ _ _ =>
                   Forall (λ o, if Sample.paired (merged sample)
                                then is_Some o else o = None)
                          (pair_arguments c) ∧
                   match c with
                   | tk.filterReads _ _ _ paired _ _ =>
                       paired = Sample.paired (merged sample)
                   | _ => True
                   end
               | _ => True
               end) (plan args prj sample).
Proof.
  each_request ltac:(first [exact I | split; [by repeat constructor|done]]).
Qed.

(** X13.  The arguments that exist only for the second read of a pair
    (second input, second and unpaired outputs) are all given for a
    paired sample and all [None] for a single-end one, in every command
    of the script, and the quality filter is told the same flag. *)
Theorem X13_pair_arguments_follow_the_paired_flag
    (args : Args.t) (prj : Project.t) (sample : Sample.t) :
  Forall (λ r, match r with
               | CallLock c _ _ _ _ =>
                   Forall (λ o, if Sample.paired sample
                                then is_Some o else o = None)
                          (pair_arguments c) ∧
                   match c with
                   | tk.filterReads _ _ _ paired _ _ =>
                       paired = Sample.paired sample
                   | _ => True
                   end
               | _ => True
               end) (requests args prj sample).
Proof.
  rewrite requests_plan, <- (merged_field Sample.paired sample) by done.
  apply plan_pair_arguments.
Qed.
